(** * VPCS device: settings reconciliation and configuration transfer

    A shallow embedding of [gns3/modules/vpcs/vpcs_device.py] (class
    [VPCSDevice]) and the properties of its settings protocol: the diff
    sent by [update], the compatibility rule of [create], the sparse merge of
    [_updateCallback], the topology [dump] / [load] pair and the import and
    export of the startup script.

    Python dictionaries are finite maps with string keys ([gmap string _]);
    iteration order is never observable in the methods modelled here, since
    every loop writes each key at most once.  A method that mutates a
    dictionary handed in by its caller returns the dictionary as it is after
    the call.  Calls into the base class [Node] and emitted signals are
    recorded in a trace. *)

From Stdlib Require Import ZArith Ascii.
From stdpp Require Import gmap strings list fin_maps pretty.

(** ** Python values *)

(** The values a settings dictionary, a server response or a topology record
    holds at its top level: [None], booleans, integers and strings.  A [str]
    is represented by its UTF-8 bytes. *)
Inductive value : Type :=
  | VNone
  | VBool (b : bool)
  | VInt (n : Z)
  | VStr (s : string).

#[global] Instance value_eq_dec : EqDecision value.
Proof. solve_decision. Defined.

Abbreviation dict := (gmap string value).

(** [bool(v)] *)
Definition truthy (v : value) : bool :=
  match v with
  | VNone => false
  | VBool b => b
  | VInt n => negb (n =? 0)%Z
  | VStr s => negb (String.eqb s "")
  end.

(** [v is None] *)
Definition is_none (v : value) : bool :=
  match v with VNone => true | _ => false end.

Definition int_of_bool (b : bool) : Z := if b then 1%Z else 0%Z.

(** [a == b]: [bool] is a subclass of [int], so [True == 1]. *)
Definition py_eqb (a b : value) : bool :=
  match a, b with
  | VNone, VNone => true
  | VBool x, VBool y => (int_of_bool x =? int_of_bool y)%Z
  | VBool x, VInt y => (int_of_bool x =? y)%Z
  | VInt x, VBool y => (x =? int_of_bool y)%Z
  | VInt x, VInt y => (x =? y)%Z
  | VStr x, VStr y => String.eqb x y
  | _, _ => false
  end.

(** [a != b] *)
Definition py_neb (a b : value) : bool := negb (py_eqb a b).

(** [k in d] *)
Definition has_key (k : string) (d : dict) : bool :=
  match d !! k with Some _ => true | None => false end.

(** [d.get(k)] *)
Definition dict_get (d : dict) (k : string) : value :=
  match d !! k with Some v => v | None => VNone end.

(** [d.update(other)]: the entries of [other] win. *)
Definition dict_update (d other : dict) : dict := other ∪ d.

(** [if k in d: del d[k]] *)
Definition del_if_present (k : string) (d : dict) : dict :=
  if has_key k d then delete k d else d.

(** ** Exceptions *)

Inductive exn : Type :=
  | TypeError
  | AttributeError
  | KeyError (k : string)
  | OSError (msg : string).

Inductive result (A : Type) : Type :=
  | Ok (a : A)
  | Raise (e : exn).
Arguments Ok {A} a.
Arguments Raise {A} e.

#[global] Instance result_ret : MRet result := λ A a, Ok a.
#[global] Instance result_bind : MBind result := λ A B f m,
  match m with
  | Ok a => f a
  | Raise e => Raise e
  end.

(** ** Paths ([posixpath]) *)

Definition is_sep (c : Ascii.ascii) : bool := Ascii.eqb c "/"%char.

(** [last] is the text after the last separator seen so far. *)
Fixpoint basename_from (last p : string) : string :=
  match p with
  | EmptyString => last
  | String c rest =>
      if is_sep c then basename_from rest rest else basename_from last rest
  end.

(** [os.path.basename(p)] on a [str]: [p[p.rfind('/') + 1:]]. *)
Definition basename (p : string) : string := basename_from p p.

(** [os.path.basename(v)]; [os.fspath] refuses what is not a path. *)
Definition os_path_basename (v : value) : result value :=
  match v with
  | VStr p => Ok (VStr (basename p))
  | _ => Raise TypeError
  end.

(** ['/' in p] *)
Fixpoint has_sep (p : string) : bool :=
  match p with
  | EmptyString => false
  | String c rest => is_sep c || has_sep rest
  end.

(** [p.endswith('/')] *)
Fixpoint ends_with_sep (p : string) : bool :=
  match p with
  | EmptyString => false
  | String c EmptyString => is_sep c
  | String _ rest => ends_with_sep rest
  end.

(** [p.startswith('/')] *)
Definition starts_with_sep (p : string) : bool :=
  match p with
  | String c _ => is_sep c
  | EmptyString => false
  end.

(** [os.path.join(a, b)] *)
Definition os_path_join (a b : string) : string :=
  if starts_with_sep b then b
  else if String.eqb a "" || ends_with_sep a then a +:+ b
  else a +:+ "/" +:+ b.

(** [s.encode("utf-8")], a [str] being held as its UTF-8 bytes. *)
Definition encode_utf8 (s : string) : list Byte.byte := String.list_byte_of_string s.

(** ** The environment *)

(** What the methods ask of the operating system and of the code outside
    [vpcs_device.py].  [os_path_isfile] and [_readBaseConfig] receive the
    value stored under [script_file] as it is, and may raise. *)
Record World : Type := {
  os_path_isfile : value → result bool;
  (** [Node._readBaseConfig]: the content of the file, or [None]. *)
  _readBaseConfig : value → result (option string);
  (** [gns3.utils.normalize_filename.normalize_filename] *)
  normalize_filename : string → string;
  (** [os.listdir] *)
  os_listdir : string → result (list string);
  (** [open(path, "wb")]: [None] when the file is opened, the text of the
      [OSError] otherwise. *)
  open_wb : string → option string;
}.

(** Calls into the base class and emitted signals, in program order. *)
Inductive event : Type :=
  | _create (name node_id : value) (params : dict) (default_name_format : string)
  | _update (params : dict)
  | server_error_signal (id message : value)
  | error_signal (id : value) (message : string)
  | warning_signal (id : value) (message : string).

(** How a method ends: the exception that left it, if any, and what it
    called and emitted before. *)
Record effect : Type := {
  raised : option exn;
  trace : list event;
}.

Definition returns (t : list event) : effect := {| raised := None; trace := t |}.
Definition raises (e : exn) : effect := {| raised := Some e; trace := [] |}.

(** ** The device *)

Record VPCSDevice : Type := {
  (** [self.id()], [self.name()]: kept by the base class. *)
  self_id : value;
  self_name : string;
  _node_id : value;
  _settings : dict;
}.

Definition vpcs_settings : dict :=
  <["console_host" := VNone]>
  (<["startup_script" := VNone]>
  (<["startup_script_path" := VNone]>
  (<["console" := VNone]> ∅))).

(** [__init__], on the settings the base class starts with. *)
Definition __init__ (id : value) (name : string) (base_settings : dict) : VPCSDevice :=
  {| self_id := id;
     self_name := name;
     _node_id := VNone;
     _settings := dict_update base_settings vpcs_settings |}.

(** Lines 75-80 and 99-104: [script_file] is read into [startup_script] and
    removed.  When [os.path.isfile] or [_readBaseConfig] raises, the
    dictionary has not been touched yet. *)
Definition resolve_script_file (w : World) (d : dict) : result dict :=
  match d !! "script_file" with
  | Some file =>
      isfile ← os_path_isfile w file;
      d1 ← (if isfile : bool then
              base_config_content ← _readBaseConfig w file;
              mret (match base_config_content with
                    | Some content => <["startup_script" := VStr content]> d
                    | None => d
                    end)
            else mret d);
      mret (delete "script_file" d1)
  | None => mret d
  end.

(** [create]: returns [additional_settings] as the caller finds it after the
    call, and the effect. *)
Definition create (w : World) (name node_id : value) (additional_settings : dict)
    (default_name_format : string) : dict * effect :=
  match resolve_script_file w additional_settings with
  | Raise e => (additional_settings, raises e)
  | Ok d1 =>
      let d2 := del_if_present "startup_script_path" d1 in
      let d3 :=
        if has_key "startup_script" d2 && negb (is_none node_id)
        then delete "startup_script" d2 else d2 in
      let params := dict_update ∅ d3 in
      (d3, returns [_create name node_id params default_name_format])
  end.

(** The body of the loop of [update]. *)
Definition diff_step (settings : dict) (name : string) (v : value) (params : dict) : dict :=
  match settings !! name with
  | Some old => if py_neb old v then <[name := v]> params else params
  | None => params
  end.

(** [update]: returns [new_settings] as the caller finds it after the call,
    and the effect. *)
Definition update (w : World) (self : VPCSDevice) (new_settings : dict) : dict * effect :=
  match resolve_script_file w new_settings with
  | Raise e => (new_settings, raises e)
  | Ok d1 =>
      let d2 := del_if_present "startup_script_path" d1 in
      let params := map_fold (diff_step (_settings self)) ∅ d2 in
      (d2, returns (if decide (params = ∅) then [] else [_update params]))
  end.

(** The body of the loop of [_updateCallback], on [self._settings]. *)
Definition merge_step (name : string) (v : value) (settings : dict) : dict :=
  match settings !! name with
  | Some old => if py_neb old v then <[name := v]> settings else settings
  | None => settings
  end.

(** [_updateCallback]: the device after the server response [result]. *)
Definition _updateCallback (self : VPCSDevice) (result : dict) : VPCSDevice :=
  {| self_id := self_id self;
     self_name := self_name self;
     _node_id := _node_id self;
     _settings := map_fold merge_step (_settings self) result |}.

(** The body of the loop of [dump], on [vpcs_device["properties"]]. *)
Definition dump_step (name : string) (v : value) (properties : result dict) : result dict :=
  props ← properties;
  if negb (is_none v) && py_neb v (VStr "") then
    if negb (String.eqb name "startup_script") then
      v' ← (if String.eqb name "startup_script_path" then os_path_basename v else mret v);
      mret (<[name := v']> props)
    else mret props
  else mret props.

(** [dump], on the [properties] of the representation that [super().dump()]
    returns; the other entries of the representation are not touched. *)
Definition dump_onto (base_properties : dict) (self : VPCSDevice) : result dict :=
  map_fold dump_step (Ok base_properties) (_settings self).

(** Modelled from the spec: [Node.dump] is not part of [vpcs_device.py]; the
    [properties] sub-map is built from the settings entries alone, so the base
    representation brings it empty. *)
Definition Node_dump_properties : dict := ∅.

(** The [properties] of [dump()]. *)
Definition dump (self : VPCSDevice) : result dict :=
  dump_onto Node_dump_properties self.

(** A persisted node: its top-level entries and, when it has one, its
    [properties] sub-map. *)
Record node_record : Type := {
  entries : dict;
  properties : option dict;
}.

(** Lines 193-198 of [load]. *)
Definition resolve_node_id (node_info : node_record) : value :=
  let node_id := dict_get (entries node_info) "vpcs_id" in
  if negb (truthy node_id) then
    let node_id := dict_get (entries node_info) "node_id" in
    if negb (truthy node_id) then
      dict_get (entries node_info) "vm_id"
    else node_id
  else node_id.

(** The body of the loop of [load], on [vm_settings]. *)
Definition load_step (settings : dict) (name : string) (v : value) (vm_settings : dict) : dict :=
  if has_key name settings then <[name := v]> vm_settings else vm_settings.

(** [load]; [super().load(node_info)] belongs to the base class and leaves
    what is modelled here alone. *)
Definition load (w : World) (self : VPCSDevice) (node_info : node_record) : effect :=
  let node_id := resolve_node_id node_info in
  match properties node_info with
  | None => raises (KeyError "properties")
  | Some props =>
      let vm_settings := map_fold (load_step (_settings self)) ∅ props in
      match vm_settings !! "name" with
      | None => raises (KeyError "name")
      | Some name =>
          (create w name node_id (delete "name" vm_settings) "PC{0}").2
      end
  end.

(** The files of the local disk: path to content. *)
Abbreviation files := (gmap string (list Byte.byte)).

(** [_exportConfigCallback]: the disk after the call, and the effect.  A
    write to a file that has been opened succeeds. *)
Definition _exportConfigCallback (w : World) (self : VPCSDevice) (disk : files)
    (result : dict) (error : bool) (context : gmap string string) : files * effect :=
  if error then
    match result !! "message" with
    | None => (disk, raises (KeyError "message"))
    | Some message => (disk, returns [server_error_signal (self_id self) message])
    end
  else
    match result !! "startup_script" with
    | None => (disk, returns [])
    | Some script =>
        match context !! "path" with
        | None => (disk, raises (KeyError "path"))
        | Some path =>
            match open_wb w path with
            | Some e =>
                (disk, returns [error_signal (self_id self)
                   ("could not export the script file to " +:+ path +:+ ": " +:+ e)])
            | None =>
                let created := <[path := []]> disk in
                if truthy script then
                  match script with
                  | VStr s => (<[path := encode_utf8 s]> created, returns [])
                  | _ => (created, raises AttributeError)
                  end
                else (created, returns [])
            end
        end
    end.

(** [importConfig] *)
Definition importConfig (w : World) (self : VPCSDevice) (path : string) : effect :=
  let new_settings : dict := {["script_file" := VStr path]} in
  (update w self new_settings).2.

(** [importConfigFromDirectory] *)
Definition importConfigFromDirectory (w : World) (self : VPCSDevice) (directory : string) : effect :=
  match os_listdir w directory with
  | Raise (OSError e) =>
      returns [warning_signal (self_id self)
                 ("Can't list file in " +:+ directory +:+ ": " +:+ e)]
  | Raise e => raises e
  | Ok contents =>
      let script_file := normalize_filename w (self_name self) +:+ "_startup.vpc" in
      if bool_decide (script_file ∈ contents) then
        let new_settings : dict := {["script_file" := VStr (os_path_join directory script_file)]} in
        (update w self new_settings).2
      else
        returns [warning_signal (self_id self)
                   ("no script file could be found, expected file name: " +:+ script_file)]
  end.

(** ** A concrete environment and device, for the examples *)

Definition demo_world : World :=
  {| os_path_isfile := λ v,
       match v with
       | VStr p => Ok (String.eqb p "/home/user/PC1_startup.vpc")
       | VNone => Raise TypeError
       | _ => Ok false
       end;
     _readBaseConfig := λ v,
       match v with
       | VStr p => Ok (if String.eqb p "/home/user/PC1_startup.vpc"
                       then Some "ip 10.0.0.1/24" else None)
       | _ => Raise AttributeError
       end;
     normalize_filename := λ s, s;
     os_listdir := λ d,
       if String.eqb d "/home/user" then Ok ["notes.txt"; "PC1_startup.vpc"]
       else if String.eqb d "/srv/empty" then Ok ["notes.txt"]
       else Raise (OSError "[Errno 2] No such file or directory");
     open_wb := λ p,
       if String.eqb p "/readonly/PC1.vpc"
       then Some "[Errno 13] Permission denied" else None |}.

Definition demo_settings : dict :=
  <["name" := VStr "PC1"]>
  (<["console_host" := VStr "127.0.0.1"]>
  (<["startup_script" := VStr "ip dhcp"]>
  (<["startup_script_path" := VStr "/home/user/PC1_startup.vpc"]>
  (<["console" := VInt 5000]> ∅)))).

Definition demo_device : VPCSDevice :=
  {| self_id := VInt 1;
     self_name := "PC1";
     _node_id := VStr "8f2b7c1e";
     _settings := demo_settings |}.

Definition demo_new_settings : dict :=
  <["script_file" := VStr "/home/user/PC1_startup.vpc"]>
  (<["startup_script_path" := VStr "PC1_startup.vpc"]>
  (<["console" := VInt 5001]>
  (<["console_host" := VStr "127.0.0.1"]>
  (<["ram" := VInt 64]> ∅)))).

(** [demo_new_settings] once [script_file] has been read. *)
Definition demo_resolved : dict :=
  <["startup_script" := VStr "ip 10.0.0.1/24"]>
  (<["startup_script_path" := VStr "PC1_startup.vpc"]>
  (<["console" := VInt 5001]>
  (<["console_host" := VStr "127.0.0.1"]>
  (<["ram" := VInt 64]> ∅)))).

(** A device as [__init__] leaves it, the base class bringing [name]. *)
Definition fresh_device : VPCSDevice :=
  __init__ (VInt 2) "" {["name" := VStr ""]}.

(** A record of an older topology, with an empty [vpcs_id]. *)
Definition legacy_record : node_record :=
  {| entries := <["vpcs_id" := VStr ""]> {["node_id" := VStr "8f2b7c1e"]};
     properties := Some (<["name" := VStr "PC1"]> {["console" := VInt 5000]}) |}.

(** ** The notions the properties are stated with *)

(** The test of the loop of [dump]: the entry goes into the properties. *)
Definition dumped (name : string) (v : value) : bool :=
  negb (is_none v) && py_neb v (VStr "") && negb (String.eqb name "startup_script").

(** [None] or a [str]: what [startup_script_path] is meant to hold. *)
Definition str_or_none (v : value) : bool :=
  match v with
  | VNone | VStr _ => true
  | _ => false
  end.

(** What the loop of [dump] leaves under each key of the properties, started
    from [base], and when it raises. *)
Definition dump_post (base m : dict) (r : result dict) : Prop :=
  match r with
  | Ok props =>
      ∀ k, match m !! k with
           | Some v =>
               if dumped k v then
                 if String.eqb k "startup_script_path"
                 then ∃ p, v = VStr p ∧ props !! k = Some (VStr (basename p))
                 else props !! k = Some v
               else props !! k = base !! k
           | None => props !! k = base !! k
           end
  | Raise e =>
      e = TypeError ∧
      ∃ v, m !! "startup_script_path" = Some v ∧ v ≠ VNone ∧ ∀ p, v ≠ VStr p
  end.

(** The identifier as the specification words it: the value of the first of
    [vpcs_id], [node_id], [vm_id] that is present, [None] without any. *)
Definition spec_first_present_id (node_info : dict) : value :=
  match node_info !! "vpcs_id" with
  | Some v => v
  | None =>
      match node_info !! "node_id" with
      | Some v => v
      | None => dict_get node_info "vm_id"
      end
  end.

(** The value under [k] when there is one and it is truthy. *)
Definition get_truthy (d : dict) (k : string) : option value :=
  match d !! k with
  | Some v => if truthy v then Some v else None
  | None => None
  end.

(** The identifier by truthiness: the first of [vpcs_id], [node_id] that
    holds a truthy value, else whatever [vm_id] holds, [None] without it. *)
Definition first_truthy_id (node_info : dict) : value :=
  match get_truthy node_info "vpcs_id" with
  | Some v => v
  | None =>
      match get_truthy node_info "node_id" with
      | Some v => v
      | None => dict_get node_info "vm_id"
      end
  end.

(** [dump] of [self], then [load] on [fresh] from the dumped properties with
    [name] put back in; [ids] are the top-level entries of the record. *)
Definition reload (w : World) (self fresh : VPCSDevice) (ids : dict) (name : value)
    : result effect :=
  props ← dump self;
  mret (load w fresh {| entries := ids; properties := Some (<["name" := name]> props) |}).

(** The settings of a loaded device once it has taken over every parameter
    that it sent to the base creation: the most that a load can restore. *)
Definition settings_after (fresh : VPCSDevice) (e : effect) : dict :=
  foldl (λ settings ev,
           match ev with
           | _create _ _ params _ => dict_update settings params
           | _ => settings
           end) (_settings fresh) (trace e).

(** A directory that yields no script: the listing lacks the expected file,
    or cannot be had; with the text of the warning that each case calls for. *)
Inductive listing_miss (w : World) (self : VPCSDevice) (directory : string) : string → Prop :=
  | miss_absent contents :
      os_listdir w directory = Ok contents →
      normalize_filename w (self_name self) +:+ "_startup.vpc" ∉ contents →
      listing_miss w self directory
        ("no script file could be found, expected file name: " +:+
           (normalize_filename w (self_name self) +:+ "_startup.vpc"))
  | miss_unlistable e :
      os_listdir w directory = Raise (OSError e) →
      listing_miss w self directory
        ("Can't list file in " +:+ directory +:+ ": " +:+ e).

(** ** The rest of the class *)

(** [console] *)
Definition console (self : VPCSDevice) : result value :=
  match _settings self !! "console" with
  | Some port => Ok port
  | None => Raise (KeyError "console")
  end.

(** The device after the server responses [results], oldest first, each
    through [_updateCallback]. *)
Definition after_responses (self : VPCSDevice) (results : list dict) : VPCSDevice :=
  foldl _updateCallback self results.

(** Lines 267-273, the same as lines 234-240: the script is saved to a path.
    A write to a file that has been opened succeeds. *)
Definition save_script (w : World) (self : VPCSDevice) (disk : files)
    (config_path : string) (script : value) : files * effect :=
  match open_wb w config_path with
  | Some e =>
      (disk, returns [error_signal (self_id self)
         ("could not export the script file to " +:+ config_path +:+ ": " +:+ e)])
  | None =>
      let created := <[config_path := []]> disk in
      if truthy script then
        match script with
        | VStr s => (<[config_path := encode_utf8 s]> created, returns [])
        | _ => (created, raises AttributeError)
        end
      else (created, returns [])
  end.

(** The path that [_exportConfigToDirectoryCallback] writes to. *)
Definition directory_config_path (w : World) (self : VPCSDevice) (export_directory : string)
    : string :=
  os_path_join export_directory (normalize_filename w (self_name self)) +:+ "_startup.vpc".

(** [_exportConfigToDirectoryCallback]: the disk after the call, and the
    effect. *)
Definition _exportConfigToDirectoryCallback (w : World) (self : VPCSDevice) (disk : files)
    (result : dict) (error : bool) (context : gmap string string) : files * effect :=
  if error then
    match result !! "message" with
    | None => (disk, raises (KeyError "message"))
    | Some message => (disk, returns [server_error_signal (self_id self) message])
    end
  else
    match result !! "startup_script" with
    | None => (disk, returns [])
    | Some script =>
        match context !! "directory" with
        | None => (disk, raises (KeyError "directory"))
        | Some export_directory =>
            save_script w self disk (directory_config_path w self export_directory) script
        end
    end.

(** [str(v)], as [str.format] renders a value. *)
Definition py_str (v : value) : string :=
  match v with
  | VNone => "None"
  | VBool true => "True"
  | VBool false => "False"
  | VInt n => pretty n
  | VStr s => s
  end.

(** The two callbacks that the class hands to [httpGet]. *)
Inductive callback : Type :=
  | on_exportConfig
  | on_exportConfigToDirectory.

(** A call of [httpGet]. *)
Record request : Type := {
  req_path : string;
  req_callback : callback;
  req_context : gmap string string;
}.

(** [exportConfig] *)
Definition exportConfig (self : VPCSDevice) (config_export_path : string) : request :=
  {| req_path := "/vpcs/nodes/" +:+ py_str (_node_id self);
     req_callback := on_exportConfig;
     req_context := {["path" := config_export_path]} |}.

(** [exportConfigToDirectory] *)
Definition exportConfigToDirectory (self : VPCSDevice) (directory : string) : request :=
  {| req_path := "/vpcs/nodes/" +:+ py_str (_node_id self);
     req_callback := on_exportConfigToDirectory;
     req_context := {["directory" := directory]} |}.

(** Modelled from the spec: [httpGet] is not part of [vpcs_device.py]; the
    transport completes a request by calling its callback with the response,
    the error flag and the context of the request. *)
Definition complete (w : World) (self : VPCSDevice) (disk : files) (req : request)
    (result : dict) (error : bool) : files * effect :=
  match req_callback req with
  | on_exportConfig => _exportConfigCallback w self disk result error (req_context req)
  | on_exportConfigToDirectory =>
      _exportConfigToDirectoryCallback w self disk result error (req_context req)
  end.

(** [self._settings["startup_script"] = script], for the statements. *)
Definition with_script (self : VPCSDevice) (script : value) : VPCSDevice :=
  {| self_id := self_id self;
     self_name := self_name self;
     _node_id := _node_id self;
     _settings := <["startup_script" := script]> (_settings self) |}.

(** ** Dictionaries and the loops over them *)

Lemma has_key_true k (d : dict) : has_key k d = true ↔ is_Some (d !! k).
Proof. unfold has_key. destruct (d !! k); split; intros H; try done; by inversion H. Qed.

Lemma has_key_false k (d : dict) : has_key k d = false ↔ d !! k = None.
Proof. unfold has_key. by destruct (d !! k). Qed.

Lemma has_key_dom k (d : dict) : has_key k d = bool_decide (k ∈ dom d).
Proof.
  destruct (has_key k d) eqn:H; symmetry.
  - apply bool_decide_eq_true, elem_of_dom. by apply has_key_true.
  - apply bool_decide_eq_false, not_elem_of_dom. by apply has_key_false.
Qed.

Lemma del_if_present_delete k (d : dict) : del_if_present k d = delete k d.
Proof.
  unfold del_if_present. destruct (has_key k d) eqn:H; [done|].
  apply has_key_false in H. symmetry. by apply delete_id.
Qed.

Lemma dict_update_empty (d : dict) : dict_update ∅ d = d.
Proof. unfold dict_update. apply (right_id_L ∅ (∪)). Qed.

Lemma py_neb_empty v : py_neb v (VStr "") = true ↔ v ≠ VStr "".
Proof.
  unfold py_neb. destruct v as [| | |s]; simpl; try done.
  destruct (String.eqb_spec s ""); simpl; split; congruence.
Qed.

Lemma is_none_false v : is_none v = false ↔ v ≠ VNone.
Proof. by destruct v. Qed.

Section loops.
Context (settings : dict).

(** The patch of [update] under each key. *)
Lemma diff_lookup (d : dict) k :
  map_fold (diff_step settings) ∅ d !! k =
    match d !! k, settings !! k with
    | Some v, Some old => if py_neb old v then Some v else None
    | _, _ => None
    end.
Proof.
  revert k. apply (map_fold_weak_ind (λ (r : dict) (m : dict), ∀ k, r !! k =
    match m !! k, settings !! k with
    | Some v, Some old => if py_neb old v then Some v else None
    | _, _ => None
    end)).
  - intros k. by rewrite !lookup_empty.
  - intros i x m r Hi IH k. unfold diff_step.
    destruct (decide (i = k)) as [->|Hne].
    + rewrite lookup_insert_eq. destruct (settings !! k) as [old|] eqn:Hs.
      * destruct (py_neb old x); [by rewrite lookup_insert_eq|].
        by rewrite IH, Hi.
      * by rewrite IH, Hi.
    + rewrite (lookup_insert_ne m) by done.
      destruct (settings !! i) as [old|]; [|apply IH].
      destruct (py_neb old x); [|apply IH].
      rewrite lookup_insert_ne by done. apply IH.
Qed.

(** The settings after [_updateCallback] under each key. *)
Lemma merge_lookup (result : dict) k :
  map_fold merge_step settings result !! k =
    match result !! k, settings !! k with
    | Some v, Some old => if py_neb old v then Some v else Some old
    | _, o => o
    end.
Proof.
  revert k. apply (map_fold_weak_ind (λ (r : dict) (m : dict), ∀ k, r !! k =
    match m !! k, settings !! k with
    | Some v, Some old => if py_neb old v then Some v else Some old
    | _, o => o
    end)).
  - intros k. by rewrite lookup_empty.
  - intros i x m r Hi IH k. unfold merge_step.
    destruct (decide (i = k)) as [->|Hne].
    + rewrite lookup_insert_eq. pose proof (IH k) as IHk. rewrite Hi in IHk.
      rewrite IHk. destruct (settings !! k) as [old|] eqn:Hs; [|by rewrite IHk].
      destruct (py_neb old x); [by rewrite lookup_insert_eq|done].
    + rewrite (lookup_insert_ne m) by done.
      destruct (r !! i) as [old|]; [|apply IH].
      destruct (py_neb old x); [|apply IH].
      rewrite lookup_insert_ne by done. apply IH.
Qed.

(** The [vm_settings] of [load] under each key. *)
Lemma load_fold (props : dict) k :
  map_fold (load_step settings) ∅ props !! k =
    if has_key k settings then props !! k else None.
Proof.
  revert k. apply (map_fold_weak_ind (λ (r : dict) (m : dict), ∀ k,
    r !! k = if has_key k settings then m !! k else None)).
  - intros k. rewrite !lookup_empty. by destruct (has_key k settings).
  - intros i x m r Hi IH k. unfold load_step.
    destruct (decide (i = k)) as [->|Hne].
    + rewrite lookup_insert_eq. destruct (has_key k settings) eqn:Hk.
      * by rewrite lookup_insert_eq.
      * by rewrite IH, Hk.
    + rewrite (lookup_insert_ne m) by done.
      destruct (has_key i settings); [rewrite lookup_insert_ne by done|]; apply IH.
Qed.
End loops.

(** ** create and update *)

Section script_file.
Context (w : World).

Lemma resolve_script_file_Ok (d r : dict) :
  resolve_script_file w d = Ok r →
  r !! "script_file" = None ∧
  (∀ k, k ≠ "script_file" → k ≠ "startup_script" → r !! k = d !! k) ∧
  (r !! "startup_script" = d !! "startup_script" ∨
   ∃ file content,
     d !! "script_file" = Some file ∧ os_path_isfile w file = Ok true ∧
     _readBaseConfig w file = Ok (Some content) ∧
     r !! "startup_script" = Some (VStr content)).
Proof.
  unfold resolve_script_file. destruct (d !! "script_file") as [file|] eqn:Hf.
  - destruct (os_path_isfile w file) as [[|]|e] eqn:Hi; simpl; [| |done].
    + destruct (_readBaseConfig w file) as [[content|]|e] eqn:Hr; simpl; [| |done].
      * intros [= <-]. split; [apply lookup_delete_eq|]. split.
        { intros k Hk1 Hk2. rewrite lookup_delete_ne, lookup_insert_ne; done. }
        right. exists file, content. repeat split; try done.
        rewrite lookup_delete_ne by done. apply lookup_insert_eq.
      * intros [= <-]. split; [apply lookup_delete_eq|]. split.
        { intros k Hk1 Hk2. by rewrite lookup_delete_ne. }
        left. by rewrite lookup_delete_ne.
    + intros [= <-]. split; [apply lookup_delete_eq|]. split.
      { intros k Hk1 Hk2. by rewrite lookup_delete_ne. }
      left. by rewrite lookup_delete_ne.
  - intros [= <-]. auto.
Qed.

(** Without [script_file] nothing is asked of the environment. *)
Lemma resolve_script_file_absent (d : dict) :
  d !! "script_file" = None → resolve_script_file w d = Ok d.
Proof. unfold resolve_script_file. by intros ->. Qed.

(** An exception of the environment leaves [update] before any call. *)
Lemma update_raises self (d : dict) e :
  resolve_script_file w d = Raise e → update w self d = (d, raises e).
Proof. unfold update. by intros ->. Qed.

Lemma create_raises name node_id (d : dict) fmt e :
  resolve_script_file w d = Raise e → create w name node_id d fmt = (d, raises e).
Proof. unfold create. by intros ->. Qed.

Lemma create_trace name node_id (d : dict) fmt ev :
  ev ∈ trace (create w name node_id d fmt).2 →
  ∃ params, ev = _create name node_id params fmt.
Proof.
  unfold create. destruct (resolve_script_file w d); simpl.
  - intros ->%list_elem_of_singleton. eauto.
  - by intros ?%elem_of_nil.
Qed.
End script_file.

(** C1: when the resolution of [script_file] returns, the patch of [update]
    holds exactly the entries of [new_settings] (after that resolution and
    without [startup_script_path]) whose key is in the settings of the device
    and whose value differs from the stored one; [update] returns, calls
    [_update] once with that patch when it is not empty and makes no call
    when it is. *)
Theorem update_sends_exactly_the_diff w self (new_settings resolved : dict) :
  resolve_script_file w new_settings = Ok resolved →
  ∃ patch : dict,
    (∀ k v, patch !! k = Some v ↔
       delete "startup_script_path" resolved !! k = Some v ∧
       ∃ old, _settings self !! k = Some old ∧ py_neb old v = true) ∧
    raised (update w self new_settings).2 = None ∧
    (patch = ∅ → trace (update w self new_settings).2 = []) ∧
    (patch ≠ ∅ → trace (update w self new_settings).2 = [_update patch]).
Proof.
  intros Hres. unfold update. rewrite Hres, del_if_present_delete. simpl.
  set (cand := delete "startup_script_path" resolved).
  exists (map_fold (diff_step (_settings self)) ∅ cand).
  split; [|split; [done|split; intros Hp; by case_decide]].
  intros k v. rewrite diff_lookup.
  destruct (cand !! k) as [x|] eqn:Hc.
  - destruct (_settings self !! k) as [old|] eqn:Hs.
    + destruct (py_neb old x) eqn:Hne.
      * split; [intros [= <-]; eauto|]. by intros [[= <-] _].
      * split; [done|]. intros [[= <-] (old' & [= <-] & Hd)]. congruence.
    + split; [done|]. by intros [_ (old & ? & _)].
  - split; [done|]. by intros [? _].
Qed.

Lemma update_sends_exactly_the_diff_witness :
  resolve_script_file demo_world demo_new_settings = Ok demo_resolved ∧
  ∃ patch : dict,
    (∀ k v, patch !! k = Some v ↔
       delete "startup_script_path" demo_resolved !! k = Some v ∧
       ∃ old, _settings demo_device !! k = Some old ∧ py_neb old v = true) ∧
    raised (update demo_world demo_device demo_new_settings).2 = None ∧
    (patch = ∅ → trace (update demo_world demo_device demo_new_settings).2 = []) ∧
    (patch ≠ ∅ → trace (update demo_world demo_device demo_new_settings).2 = [_update patch]).
Proof.
  split; [vm_compute; reflexivity|].
  apply (update_sends_exactly_the_diff demo_world demo_device demo_new_settings demo_resolved).
  vm_compute; reflexivity.
Defined.

(** The unchanged [console_host], the unknown [ram] and the path are dropped;
    the script that was read and the new port are sent. *)
Example update_demo :
  update demo_world demo_device demo_new_settings =
    (delete "startup_script_path" demo_resolved,
     returns [_update (<["startup_script" := VStr "ip 10.0.0.1/24"]> {["console" := VInt 5001]})]).
Proof. vm_compute; reflexivity. Qed.

(** Settings that are all as stored: no call. *)
Example update_identical :
  (update demo_world demo_device (delete "startup_script_path" demo_settings)).2 = returns [].
Proof. vm_compute; reflexivity. Qed.

(** C2: with a [node_id] that is not [None], no parameter set that [create]
    hands to [_create] has the key [startup_script], whether the caller gave
    one or [script_file] was resolved into one; and when the resolution
    returns, [_create] is called once, with the resolved settings less
    [startup_script_path] and [startup_script]. *)
Theorem create_with_node_id_omits_startup_script w name node_id
    (additional_settings : dict) default_name_format :
  node_id ≠ VNone →
  (∀ n i params f,
     _create n i params f ∈ trace (create w name node_id additional_settings default_name_format).2 →
     params !! "startup_script" = None) ∧
  (∀ resolved,
     resolve_script_file w additional_settings = Ok resolved →
     (create w name node_id additional_settings default_name_format).2 =
       returns [_create name node_id
                  (delete "startup_script" (delete "startup_script_path" resolved))
                  default_name_format]).
Proof.
  intros Hid.
  assert (Hcall : ∀ resolved,
     resolve_script_file w additional_settings = Ok resolved →
     (create w name node_id additional_settings default_name_format).2 =
       returns [_create name node_id
                  (delete "startup_script" (delete "startup_script_path" resolved))
                  default_name_format]).
  { intros resolved Hres. unfold create. rewrite Hres, del_if_present_delete. simpl.
    rewrite dict_update_empty.
    destruct node_id; [done| | |]; simpl; rewrite andb_true_r;
      fold (del_if_present "startup_script" (delete "startup_script_path" resolved));
      by rewrite del_if_present_delete. }
  split; [|done].
  intros n i params f. destruct (resolve_script_file w additional_settings) as [r|e] eqn:Hres.
  - rewrite (Hcall r eq_refl). simpl. intros [= -> -> -> ->]%list_elem_of_singleton.
    apply lookup_delete_eq.
  - unfold create. rewrite Hres. simpl. by intros ?%elem_of_nil.
Qed.

Lemma create_with_node_id_omits_startup_script_witness :
  VStr "8f2b7c1e" ≠ VNone ∧
  (∀ n i params f,
     _create n i params f ∈
       trace (create demo_world (VStr "PC1") (VStr "8f2b7c1e") demo_new_settings "PC{0}").2 →
     params !! "startup_script" = None) ∧
  (∀ resolved,
     resolve_script_file demo_world demo_new_settings = Ok resolved →
     (create demo_world (VStr "PC1") (VStr "8f2b7c1e") demo_new_settings "PC{0}").2 =
       returns [_create (VStr "PC1") (VStr "8f2b7c1e")
                  (delete "startup_script" (delete "startup_script_path" resolved))
                  "PC{0}"]).
Proof.
  split; [discriminate|].
  apply (create_with_node_id_omits_startup_script demo_world (VStr "PC1") (VStr "8f2b7c1e")
           demo_new_settings "PC{0}").
  discriminate.
Defined.

(** The script read from [script_file] is sent for a new device and held back
    for one that the server already has. *)
Example create_demo :
  (create demo_world (VStr "PC1") VNone demo_new_settings "PC{0}").2 =
    returns [_create (VStr "PC1") VNone (delete "startup_script_path" demo_resolved) "PC{0}"] ∧
  (create demo_world (VStr "PC1") (VStr "8f2b7c1e") demo_new_settings "PC{0}").2 =
    returns [_create (VStr "PC1") (VStr "8f2b7c1e")
               (delete "startup_script" (delete "startup_script_path" demo_resolved)) "PC{0}"].
Proof. split; vm_compute; reflexivity. Qed.

(** C9: [_updateCallback] overwrites a setting exactly when the response has
    its key with a value that differs from the stored one; a setting whose
    key the response does not mention keeps its value, and no key is added. *)
Theorem callback_merges_sparsely self (result : dict) :
  let settings' := _settings (_updateCallback self result) in
  (∀ k v old, result !! k = Some v → _settings self !! k = Some old →
     py_neb old v = true → settings' !! k = Some v) ∧
  (∀ k v old, result !! k = Some v → _settings self !! k = Some old →
     py_neb old v = false → settings' !! k = Some old) ∧
  (∀ k, result !! k = None → settings' !! k = _settings self !! k) ∧
  (∀ k, _settings self !! k = None → settings' !! k = None).
Proof.
  simpl. repeat split.
  - intros k v old Hr Hs Hne. by rewrite merge_lookup, Hr, Hs, Hne.
  - intros k v old Hr Hs Hne. by rewrite merge_lookup, Hr, Hs, Hne.
  - intros k Hr. by rewrite merge_lookup, Hr.
  - intros k Hs. rewrite merge_lookup, Hs. by destruct (result !! k).
Qed.

(** A response with a new port and a field the device does not keep. *)
Example callback_demo :
  _settings (_updateCallback demo_device (<["console" := VInt 5002]> {["status" := VStr "started"]})) =
    <["console" := VInt 5002]> demo_settings.
Proof. vm_compute; reflexivity. Qed.

(** C10: [create] and [update] work on the dictionary of the caller itself.
    When the resolution of [script_file] returns, the dictionary afterwards
    has neither [script_file] nor [startup_script_path]; its [startup_script]
    is the one of the resolution (the caller's own, or the content read from
    [script_file]), except that [create] with a [node_id] other than [None]
    has removed it; every other entry is as it was. *)
Theorem create_and_update_mutate_argument w self name node_id (d resolved : dict) fmt :
  resolve_script_file w d = Ok resolved →
  let after_create := (create w name node_id d fmt).1 in
  let after_update := (update w self d).1 in
  (after_create !! "script_file" = None ∧ after_create !! "startup_script_path" = None ∧
   after_update !! "script_file" = None ∧ after_update !! "startup_script_path" = None) ∧
  (after_update !! "startup_script" = resolved !! "startup_script" ∧
   (node_id = VNone → after_create !! "startup_script" = resolved !! "startup_script") ∧
   (node_id ≠ VNone → after_create !! "startup_script" = None)) ∧
  (resolved !! "startup_script" = d !! "startup_script" ∨
   ∃ file content,
     d !! "script_file" = Some file ∧ os_path_isfile w file = Ok true ∧
     _readBaseConfig w file = Ok (Some content) ∧
     resolved !! "startup_script" = Some (VStr content)) ∧
  (∀ k, k ≠ "script_file" → k ≠ "startup_script_path" → k ≠ "startup_script" →
     after_create !! k = d !! k ∧ after_update !! k = d !! k).
Proof.
  intros Hres. destruct (resolve_script_file_Ok w d resolved Hres) as (Hfile & Hother & Hscript).
  unfold create, update. rewrite Hres, !del_if_present_delete. simpl.
  set (d2 := delete "startup_script_path" resolved).
  assert (Hd3 : (if has_key "startup_script" d2 && negb (is_none node_id)
                 then delete "startup_script" d2 else d2) =
                if is_none node_id then d2 else delete "startup_script" d2).
  { destruct (is_none node_id); simpl; [by rewrite andb_false_r|].
    rewrite andb_true_r. fold (del_if_present "startup_script" d2).
    apply del_if_present_delete. }
  rewrite Hd3. clear Hd3. unfold d2. repeat split.
  - destruct (is_none node_id); by rewrite !lookup_delete_ne.
  - destruct (is_none node_id); rewrite ?(lookup_delete_ne _ "startup_script") by done;
      apply lookup_delete_eq.
  - by rewrite lookup_delete_ne.
  - apply lookup_delete_eq.
  - by rewrite lookup_delete_ne.
  - intros ->. simpl. by rewrite lookup_delete_ne.
  - intros Hn. destruct node_id; [done| | |]; apply lookup_delete_eq.
  - exact Hscript.
  - destruct (is_none node_id); rewrite !lookup_delete_ne by done; by apply Hother.
  - rewrite lookup_delete_ne by done. by apply Hother.
Qed.

Lemma create_and_update_mutate_argument_witness :
  resolve_script_file demo_world demo_new_settings = Ok demo_resolved ∧
  let after_create :=
    (create demo_world (VStr "PC1") (VStr "8f2b7c1e") demo_new_settings "PC{0}").1 in
  let after_update := (update demo_world demo_device demo_new_settings).1 in
  (after_create !! "script_file" = None ∧ after_create !! "startup_script_path" = None ∧
   after_update !! "script_file" = None ∧ after_update !! "startup_script_path" = None) ∧
  (after_update !! "startup_script" = demo_resolved !! "startup_script" ∧
   (VStr "8f2b7c1e" = VNone →
      after_create !! "startup_script" = demo_resolved !! "startup_script") ∧
   (VStr "8f2b7c1e" ≠ VNone → after_create !! "startup_script" = None)) ∧
  (demo_resolved !! "startup_script" = demo_new_settings !! "startup_script" ∨
   ∃ file content,
     demo_new_settings !! "script_file" = Some file ∧
     os_path_isfile demo_world file = Ok true ∧
     _readBaseConfig demo_world file = Ok (Some content) ∧
     demo_resolved !! "startup_script" = Some (VStr content)) ∧
  (∀ k, k ≠ "script_file" → k ≠ "startup_script_path" → k ≠ "startup_script" →
     after_create !! k = demo_new_settings !! k ∧ after_update !! k = demo_new_settings !! k).
Proof.
  split; [vm_compute; reflexivity|].
  apply (create_and_update_mutate_argument demo_world demo_device (VStr "PC1")
           (VStr "8f2b7c1e") demo_new_settings demo_resolved "PC{0}").
  vm_compute; reflexivity.
Defined.

(** The caller's dictionary after each of the two calls. *)
Example mutation_demo :
  (update demo_world demo_device demo_new_settings).1 =
    <["startup_script" := VStr "ip 10.0.0.1/24"]>
    (<["console" := VInt 5001]>
    (<["console_host" := VStr "127.0.0.1"]> {["ram" := VInt 64]})) ∧
  (create demo_world (VStr "PC1") (VStr "8f2b7c1e") demo_new_settings "PC{0}").1 =
    <["console" := VInt 5001]>
    (<["console_host" := VStr "127.0.0.1"]> {["ram" := VInt 64]}).
Proof. split; vm_compute; reflexivity. Qed.

(** ** Export and import of the script *)

(** C6: in a callback without error whose response has the key
    [startup_script], and with a target path that can be opened, the file is
    there afterwards whatever the script is: it holds the UTF-8 encoding of
    a non-empty script, and nothing when the script is [None] or empty. *)
Theorem export_creates_file_on_key_presence w self (disk : files) (result : dict)
    script (context : gmap string string) path :
  result !! "startup_script" = Some script →
  context !! "path" = Some path →
  open_wb w path = None →
  let out := _exportConfigCallback w self disk result false context in
  is_Some (out.1 !! path) ∧
  (∀ s, script = VStr s → s ≠ "" → out = (<[path := encode_utf8 s]> disk, returns [])) ∧
  (truthy script = false → out = (<[path := []]> disk, returns [])).
Proof.
  intros Hs Hp Ho. unfold _exportConfigCallback. rewrite Hs, Hp, Ho. simpl.
  repeat split.
  - destruct (truthy script); [destruct script|]; simpl;
      rewrite ?lookup_insert_eq; eauto.
  - intros s -> Hne. simpl. apply String.eqb_neq in Hne. rewrite Hne. simpl.
    by rewrite insert_insert_eq.
  - by intros ->.
Qed.

Lemma export_creates_file_on_key_presence_witness :
  ({["startup_script" := VNone]} : dict) !! "startup_script" = Some VNone ∧
  ({["path" := "/tmp/PC1.vpc"]} : gmap string string) !! "path" = Some "/tmp/PC1.vpc" ∧
  open_wb demo_world "/tmp/PC1.vpc" = None ∧
  let out := _exportConfigCallback demo_world demo_device ∅
               {["startup_script" := VNone]} false {["path" := "/tmp/PC1.vpc"]} in
  is_Some (out.1 !! "/tmp/PC1.vpc") ∧
  (∀ s, VNone = VStr s → s ≠ "" →
     out = (<["/tmp/PC1.vpc" := encode_utf8 s]> ∅, returns [])) ∧
  (truthy VNone = false → out = (<["/tmp/PC1.vpc" := []]> ∅, returns [])).
Proof.
  split; [vm_compute; reflexivity|].
  split; [vm_compute; reflexivity|].
  split; [vm_compute; reflexivity|].
  apply (export_creates_file_on_key_presence demo_world demo_device ∅
           {["startup_script" := VNone]} VNone {["path" := "/tmp/PC1.vpc"]} "/tmp/PC1.vpc");
    vm_compute; reflexivity.
Defined.

(** A script, an empty script and no script key; a path that cannot be
    opened. *)
Example export_demo :
  _exportConfigCallback demo_world demo_device ∅
    {["startup_script" := VStr "ip dhcp"]} false {["path" := "/tmp/PC1.vpc"]} =
    ({["/tmp/PC1.vpc" := encode_utf8 "ip dhcp"]}, returns []) ∧
  _exportConfigCallback demo_world demo_device ∅
    {["startup_script" := VStr ""]} false {["path" := "/tmp/PC1.vpc"]} =
    ({["/tmp/PC1.vpc" := []]}, returns []) ∧
  _exportConfigCallback demo_world demo_device ∅
    {["console" := VInt 5000]} false {["path" := "/tmp/PC1.vpc"]} = (∅, returns []) ∧
  _exportConfigCallback demo_world demo_device ∅
    {["startup_script" := VStr "ip dhcp"]} false {["path" := "/readonly/PC1.vpc"]} =
    (∅, returns [error_signal (VInt 1)
       "could not export the script file to /readonly/PC1.vpc: [Errno 13] Permission denied"]).
Proof. repeat split; vm_compute; reflexivity. Qed.

(** C7: a callback with the error flag set and a message in the response
    emits the server error signal once, with the identifier of the device and
    the message as it came, and leaves the disk as it was. *)
Theorem export_error_emits_one_server_error w self (disk : files) (result : dict)
    message (context : gmap string string) :
  result !! "message" = Some message →
  _exportConfigCallback w self disk result true context =
    (disk, returns [server_error_signal (self_id self) message]).
Proof. intros Hm. unfold _exportConfigCallback. by rewrite Hm. Qed.

Lemma export_error_emits_one_server_error_witness :
  ({["message" := VStr "Node not found"]} : dict) !! "message" = Some (VStr "Node not found") ∧
  _exportConfigCallback demo_world demo_device ∅
    {["message" := VStr "Node not found"]} true {["path" := "/tmp/PC1.vpc"]} =
    (∅, returns [server_error_signal (self_id demo_device) (VStr "Node not found")]).
Proof.
  split; [vm_compute; reflexivity|].
  apply (export_error_emits_one_server_error demo_world demo_device ∅
           {["message" := VStr "Node not found"]} (VStr "Node not found")
           {["path" := "/tmp/PC1.vpc"]}).
  vm_compute; reflexivity.
Defined.

(** C8: when the listing of the directory lacks the expected file, or cannot
    be had, [importConfigFromDirectory] returns after one warning, which
    carries the identifier of the device and, in the first case, the
    expected file name; [_update] is not called. *)
Theorem import_miss_warns_without_update w self directory message :
  listing_miss w self directory message →
  importConfigFromDirectory w self directory =
    returns [warning_signal (self_id self) message] ∧
  ∀ params, _update params ∉ trace (importConfigFromDirectory w self directory).
Proof.
  intros Hmiss.
  assert (importConfigFromDirectory w self directory =
            returns [warning_signal (self_id self) message]) as Heq.
  { unfold importConfigFromDirectory. destruct Hmiss as [contents Hl Hn|e Hl]; rewrite Hl.
    - by rewrite bool_decide_eq_false_2.
    - done. }
  split; [done|]. intros params. rewrite Heq. simpl.
  by intros [=]%list_elem_of_singleton.
Qed.

Lemma import_miss_warns_without_update_witness :
  listing_miss demo_world demo_device "/srv/empty"
    ("no script file could be found, expected file name: " +:+
       (normalize_filename demo_world (self_name demo_device) +:+ "_startup.vpc")) ∧
  importConfigFromDirectory demo_world demo_device "/srv/empty" =
    returns [warning_signal (self_id demo_device)
               ("no script file could be found, expected file name: " +:+
                  (normalize_filename demo_world (self_name demo_device) +:+ "_startup.vpc"))] ∧
  ∀ params,
    _update params ∉ trace (importConfigFromDirectory demo_world demo_device "/srv/empty").
Proof.
  assert (listing_miss demo_world demo_device "/srv/empty"
            ("no script file could be found, expected file name: " +:+
               (normalize_filename demo_world (self_name demo_device) +:+ "_startup.vpc")))
    as Hmiss.
  { apply (miss_absent demo_world demo_device "/srv/empty" ["notes.txt"]).
    - vm_compute; reflexivity.
    - apply (bool_decide_unpack _). vm_compute. exact I. }
  split; [exact Hmiss|].
  apply (import_miss_warns_without_update demo_world demo_device "/srv/empty" _ Hmiss).
Defined.

(** A directory without the script, one that cannot be listed, and one that
    has the script: there [update] sends what it read. *)
Example import_demo :
  importConfigFromDirectory demo_world demo_device "/srv/empty" =
    returns [warning_signal (VInt 1)
               "no script file could be found, expected file name: PC1_startup.vpc"] ∧
  importConfigFromDirectory demo_world demo_device "/nowhere" =
    returns [warning_signal (VInt 1)
               "Can't list file in /nowhere: [Errno 2] No such file or directory"] ∧
  importConfigFromDirectory demo_world demo_device "/home/user" =
    returns [_update {["startup_script" := VStr "ip 10.0.0.1/24"]}].
Proof. repeat split; vm_compute; reflexivity. Qed.

(** ** Paths *)

Lemma basename_from_no_sep last p : has_sep p = false → basename_from last p = last.
Proof.
  induction p as [|c rest IH]; simpl; [done|].
  intros [Hc Hr]%orb_false_iff. rewrite Hc. auto.
Qed.

Lemma basename_from_sep last p : has_sep p = true → basename_from last p = basename p.
Proof.
  unfold basename. revert last. induction p as [|c rest IH]; simpl; [done|].
  intros last. destruct (is_sep c) eqn:Hc; simpl; [done|].
  intros Hr. rewrite (IH last Hr). symmetry. by apply IH.
Qed.

Lemma ends_with_sep_cons c p : p ≠ "" → ends_with_sep (String c p) = ends_with_sep p.
Proof. by destruct p. Qed.

Lemma basename_cons c rest :
  basename (String c rest) =
    if is_sep c || has_sep rest then basename rest else String c rest.
Proof.
  unfold basename at 1. simpl. destruct (is_sep c) eqn:Hc; simpl; [done|].
  destruct (has_sep rest) eqn:Hr.
  - by apply basename_from_sep.
  - by apply basename_from_no_sep.
Qed.

Lemma basename_last_segment p :
  ∃ dir, p = dir +:+ basename p ∧ has_sep (basename p) = false ∧
         (dir = "" ∨ ends_with_sep dir = true).
Proof.
  induction p as [|c rest (dir & Hp & Hb & Hd)].
  - exists "". auto.
  - rewrite basename_cons. destruct (is_sep c || has_sep rest) eqn:Hs.
    + exists (String c dir). split; [by rewrite Hp at 1|]. split; [done|].
      right. destruct dir as [|d dir].
      * change (rest = basename rest) in Hp. rewrite <- Hp in Hb.
        apply orb_true_iff in Hs as [Hs|Hs]; [done|congruence].
      * destruct Hd as [Hd|Hd]; [done|]. by rewrite ends_with_sep_cons.
    + exists "". simpl. auto.
Qed.

(** ** dump *)

Lemma dumped_true name v :
  dumped name v = true ↔ v ≠ VNone ∧ v ≠ VStr "" ∧ name ≠ "startup_script".
Proof.
  unfold dumped. rewrite !andb_true_iff, !negb_true_iff, py_neb_empty, is_none_false.
  rewrite String.eqb_neq. tauto.
Qed.

Lemma dump_step_Ok name v (props : dict) :
  dump_step name v (Ok props) =
    if dumped name v then
      if String.eqb name "startup_script_path" then
        match v with
        | VStr p => Ok (<[name := VStr (basename p)]> props)
        | _ => Raise TypeError
        end
      else Ok (<[name := v]> props)
    else Ok props.
Proof.
  unfold dump_step, dumped. simpl.
  destruct (negb (is_none v) && py_neb v (VStr "")); simpl; [|done].
  destruct (String.eqb name "startup_script") eqn:Hs; simpl; [done|].
  destruct (String.eqb name "startup_script_path"); [|done].
  by destruct v.
Qed.

Lemma dump_fold (base m : dict) : dump_post base m (map_fold dump_step (Ok base) m).
Proof.
  apply (map_fold_weak_ind (λ r m, dump_post base m r)).
  - intros k. by rewrite lookup_empty.
  - intros i x m' r Hi IH. destruct r as [props|e]; unfold dump_post in *.
    + rewrite dump_step_Ok. destruct (dumped i x) eqn:Hd.
      * destruct (String.eqb_spec i "startup_script_path") as [->|Hssp].
        -- destruct x as [| | |p]; simpl.
           1-3: split; [done|]; eexists; rewrite lookup_insert_eq;
                split; [done|]; by apply dumped_true in Hd as (? & ? & ?).
           intros k. destruct (decide ("startup_script_path" = k)) as [<-|Hne].
           ++ rewrite !lookup_insert_eq, Hd. simpl. eauto.
           ++ rewrite !lookup_insert_ne by done. apply IH.
        -- simpl. intros k. destruct (decide (i = k)) as [<-|Hne].
           ++ rewrite !lookup_insert_eq, Hd.
              by destruct (String.eqb_spec i "startup_script_path").
           ++ rewrite !lookup_insert_ne by done. apply IH.
      * simpl. intros k. destruct (decide (i = k)) as [<-|Hne].
        -- rewrite lookup_insert_eq, Hd. specialize (IH i). by rewrite Hi in IH.
        -- rewrite lookup_insert_ne by done. apply IH.
    + destruct IH as (-> & v & Hv & Hn & Hp). split; [done|]. exists v.
      rewrite lookup_insert_ne; [done|]. intros ->. congruence.
Qed.

(** What [dump] leaves under a key other than [startup_script_path]. *)
Lemma dump_lookup self (props : dict) k :
  dump self = Ok props → k ≠ "startup_script_path" →
  props !! k = match _settings self !! k with
               | Some v => if dumped k v then Some v else None
               | None => None
               end.
Proof.
  intros Hd Hk. pose proof (dump_fold Node_dump_properties (_settings self)) as H.
  unfold dump, dump_onto in Hd. rewrite Hd in H. specialize (H k).
  unfold Node_dump_properties in H. rewrite lookup_empty in H.
  destruct (_settings self !! k) as [v|]; [|done].
  destruct (dumped k v); [|done].
  apply String.eqb_neq in Hk. by rewrite Hk in H.
Qed.

(** [dump] returns when [startup_script_path] holds a path or nothing. *)
Lemma dump_returns self :
  str_or_none (dict_get (_settings self) "startup_script_path") = true →
  ∃ props, dump self = Ok props.
Proof.
  intros Hp. pose proof (dump_fold Node_dump_properties (_settings self)) as H.
  unfold dump, dump_onto. destruct (map_fold _ _ _) as [props|e]; [eauto|].
  destruct H as (_ & v & Hv & Hn & Hs). unfold dict_get in Hp. rewrite Hv in Hp.
  destruct v as [| | |p]; try done. by destruct (Hs p).
Qed.

(** C4: the properties of [dump] have no [startup_script]; each of their
    entries comes from a settings entry whose value is neither [None] nor the
    empty string, and every such entry but [startup_script] is there; a
    [startup_script_path] that is set is dumped as its [basename], the part of
    the stored path after its last separator.  [dump] raises, a [TypeError],
    only on a [startup_script_path] that is neither [None] nor a [str]. *)
Theorem dump_excludes_script_and_keeps_basename self :
  match dump self with
  | Ok props =>
      props !! "startup_script" = None ∧
      (∀ k v, props !! k = Some v →
         ∃ sv, _settings self !! k = Some sv ∧ sv ≠ VNone ∧ sv ≠ VStr "" ∧
               (k ≠ "startup_script_path" → v = sv)) ∧
      (∀ k sv, _settings self !! k = Some sv → sv ≠ VNone → sv ≠ VStr "" →
         k ≠ "startup_script" → is_Some (props !! k)) ∧
      (∀ v, _settings self !! "startup_script_path" = Some v → v ≠ VNone → v ≠ VStr "" →
         ∃ p dir, v = VStr p ∧
           props !! "startup_script_path" = Some (VStr (basename p)) ∧
           p = dir +:+ basename p ∧ has_sep (basename p) = false ∧
           (dir = "" ∨ ends_with_sep dir = true))
  | Raise e =>
      e = TypeError ∧
      ∃ v, _settings self !! "startup_script_path" = Some v ∧ v ≠ VNone ∧ ∀ p, v ≠ VStr p
  end.
Proof.
  pose proof (dump_fold Node_dump_properties (_settings self)) as H.
  unfold dump, dump_onto. destruct (map_fold _ _ _) as [props|e]; [|exact H].
  unfold dump_post, Node_dump_properties in H. repeat split.
  - specialize (H "startup_script"). rewrite lookup_empty in H.
    destruct (_settings self !! "startup_script") as [v|]; [|done].
    replace (dumped "startup_script" v) with false in H; [done|].
    unfold dumped. simpl. by rewrite andb_false_r.
  - intros k v Hk. specialize (H k). rewrite lookup_empty, Hk in H.
    destruct (_settings self !! k) as [sv|]; [|done].
    destruct (dumped k sv) eqn:Hd; [|done].
    apply dumped_true in Hd as (? & ? & ?). exists sv. repeat split; try done.
    intros Hne. apply String.eqb_neq in Hne. rewrite Hne in H. congruence.
  - intros k sv Hk Hn He Hs. specialize (H k). rewrite Hk in H.
    replace (dumped k sv) with true in H by (symmetry; by apply dumped_true).
    destruct (String.eqb k "startup_script_path"); [|eauto].
    destruct H as (p & _ & ->). eauto.
  - intros v Hk Hn He. specialize (H "startup_script_path"). rewrite Hk in H.
    replace (dumped "startup_script_path" v) with true in H
      by (symmetry; by apply dumped_true).
    simpl in H. destruct H as (p & -> & Hp).
    destruct (basename_last_segment p) as (dir & ? & ? & ?). eauto 10.
Qed.

(** The script is left out and the path is cut down to the file name. *)
Example dump_demo :
  dump demo_device =
    Ok (<["name" := VStr "PC1"]>
       (<["console_host" := VStr "127.0.0.1"]>
       (<["startup_script_path" := VStr "PC1_startup.vpc"]>
       {["console" := VInt 5000]}))).
Proof. vm_compute; reflexivity. Qed.

(** A [startup_script_path] that is not a path makes [os.path.basename]
    raise. *)
Example dump_raises :
  dump {| self_id := VInt 3; self_name := "PC3"; _node_id := VNone;
          _settings := <["startup_script_path" := VInt 7]> demo_settings |} = Raise TypeError.
Proof. vm_compute; reflexivity. Qed.

Example basename_demo :
  basename "/home/user/PC1_startup.vpc" = "PC1_startup.vpc" ∧
  basename "PC1_startup.vpc" = "PC1_startup.vpc" ∧
  basename "/home/user/" = "".
Proof. repeat split. Qed.

(** ** load *)

Lemma resolve_node_id_first_truthy node_info :
  resolve_node_id node_info = first_truthy_id (entries node_info).
Proof.
  unfold resolve_node_id, first_truthy_id, get_truthy, dict_get.
  destruct (entries node_info !! "vpcs_id") as [v|]; simpl.
  - destruct (truthy v); simpl; [done|].
    destruct (entries node_info !! "node_id") as [v'|]; simpl; [|done].
    by destruct (truthy v').
  - destruct (entries node_info !! "node_id") as [v'|]; simpl; [|done].
    by destruct (truthy v').
Qed.

(** With [properties] that hold a [name] the device keeps, [load] ends in
    [create]. *)
Lemma load_calls_create w self node_info (props : dict) name :
  properties node_info = Some props →
  props !! "name" = Some name →
  has_key "name" (_settings self) = true →
  load w self node_info =
    (create w name (resolve_node_id node_info)
       (delete "name" (map_fold (load_step (_settings self)) ∅ props)) "PC{0}").2.
Proof.
  intros Hp Hn Hk. unfold load. by rewrite Hp, load_fold, Hk, Hn.
Qed.

(** The settings of a record without [properties], or without a [name] the
    device keeps, are not loaded: [KeyError]. *)
Lemma load_raises w self node_info :
  properties node_info = None → load w self node_info = raises (KeyError "properties").
Proof. unfold load. by intros ->. Qed.

(** C3, as the code has it: the identifier that [load] hands to [create] is
    the value of the first of [vpcs_id], [node_id] that is present with a
    truthy value (not [None], empty, zero or false), else the value of
    [vm_id], [None] when that is absent; a record with [properties] and a
    recognized [name] reaches [create] with it.  When every [vpcs_id] and
    [node_id] present is truthy, this is the first identifier present. *)
Theorem load_resolves_first_truthy_id w self node_info :
  (∀ n i params f, _create n i params f ∈ trace (load w self node_info) →
     i = first_truthy_id (entries node_info)) ∧
  (∀ props name,
     properties node_info = Some props → props !! "name" = Some name →
     has_key "name" (_settings self) = true →
     has_key "script_file" (_settings self) = false →
     ∃ params, load w self node_info =
       returns [_create name (first_truthy_id (entries node_info)) params "PC{0}"]) ∧
  ((∀ k v, k = "vpcs_id" ∨ k = "node_id" →
      entries node_info !! k = Some v → truthy v = true) →
   first_truthy_id (entries node_info) = spec_first_present_id (entries node_info)).
Proof.
  repeat split.
  - intros n i params f. unfold load.
    destruct (properties node_info) as [props|]; [|by intros ?%elem_of_nil].
    destruct (_ !! "name") as [name|]; [|by intros ?%elem_of_nil].
    intros (p & [= -> -> -> ->])%create_trace. apply resolve_node_id_first_truthy.
  - intros props name Hp Hn Hk Hs.
    rewrite (load_calls_create _ _ _ _ _ Hp Hn Hk), resolve_node_id_first_truthy.
    unfold create. rewrite resolve_script_file_absent.
    + simpl. eauto.
    + rewrite lookup_delete_ne, load_fold, Hs; done.
  - intros Hall. unfold first_truthy_id, spec_first_present_id, get_truthy.
    destruct (entries node_info !! "vpcs_id") as [v|] eqn:H1.
    { by rewrite (Hall "vpcs_id" v) by auto. }
    destruct (entries node_info !! "node_id") as [v|] eqn:H2; [|done].
    by rewrite (Hall "node_id" v) by auto.
Qed.

(** C3, as the claim has it, fails on a record whose [vpcs_id] is present but
    empty: the first key present holds the empty string, and [load] passes
    the [node_id] on. *)
Lemma load_skips_empty_vpcs_id :
  entries legacy_record !! "vpcs_id" = Some (VStr "") ∧
  spec_first_present_id (entries legacy_record) = VStr "" ∧
  load demo_world fresh_device legacy_record =
    returns [_create (VStr "PC1") (VStr "8f2b7c1e") {["console" := VInt 5000]} "PC{0}"] ∧
  resolve_node_id legacy_record ≠ spec_first_present_id (entries legacy_record).
Proof. repeat split; [vm_compute; reflexivity..|vm_compute; discriminate]. Qed.

(** Each generation of the record alone, and none of the three keys. *)
Example resolve_node_id_demo :
  resolve_node_id {| entries := {["vpcs_id" := VStr "a"]}; properties := None |} = VStr "a" ∧
  resolve_node_id {| entries := {["node_id" := VStr "b"]}; properties := None |} = VStr "b" ∧
  resolve_node_id {| entries := {["vm_id" := VStr "c"]}; properties := None |} = VStr "c" ∧
  resolve_node_id {| entries := <["vm_id" := VStr "c"]> {["node_id" := VStr "b"]};
                     properties := None |} = VStr "b" ∧
  resolve_node_id {| entries := ∅; properties := None |} = VNone.
Proof. repeat split; vm_compute; reflexivity. Qed.

(** ** Round trip *)

(** C5, as the claim has it, fails: the path of the script is dumped as a
    file name and [create] then removes it from what it sends, so that the
    loaded device cannot have it back. *)
Lemma reload_loses_script_path :
  ∃ e, reload demo_world demo_device fresh_device ∅ (VStr "PC1") = Ok e ∧
       e = returns [_create (VStr "PC1") VNone
                      (<["console_host" := VStr "127.0.0.1"]> {["console" := VInt 5000]})
                      "PC{0}"] ∧
       _settings demo_device !! "startup_script_path" =
         Some (VStr "/home/user/PC1_startup.vpc") ∧
       settings_after fresh_device e !! "startup_script_path" = Some VNone ∧
       delete "startup_script" (settings_after fresh_device e) ≠
         delete "startup_script" (_settings demo_device).
Proof.
  eexists. split; [vm_compute; reflexivity|].
  split; [vm_compute; reflexivity|].
  split; [vm_compute; reflexivity|].
  split; [vm_compute; reflexivity|]. intros H.
  apply (f_equal (lookup "startup_script_path")) in H. vm_compute in H. discriminate.
Qed.

(** C5, as the code has it: for a device that keeps a [name] and no
    [script_file], and whose [startup_script_path] is a path or [None], the
    dump followed by the load of a device with the same settings keys returns
    after one call of [_create], with the name put back in and with exactly
    the settings entries other than [name], [startup_script] and
    [startup_script_path] whose value is neither [None] nor the empty
    string, each with its value. *)
Theorem reload_sends_dumped_settings w self fresh (ids : dict) name :
  dom (_settings fresh) = dom (_settings self) →
  has_key "name" (_settings self) = true →
  has_key "script_file" (_settings self) = false →
  str_or_none (dict_get (_settings self) "startup_script_path") = true →
  ∃ node_id params,
    reload w self fresh ids name = Ok (returns [_create name node_id params "PC{0}"]) ∧
    ∀ k v, params !! k = Some v ↔
      k ≠ "name" ∧ k ≠ "startup_script" ∧ k ≠ "startup_script_path" ∧
      _settings self !! k = Some v ∧ v ≠ VNone ∧ v ≠ VStr "".
Proof.
  intros Hdom Hname Hfile Hpath. unfold reload.
  assert (Hkeys : ∀ k, has_key k (_settings fresh) = has_key k (_settings self)).
  { intros k. by rewrite !has_key_dom, Hdom. }
  destruct (dump_returns self Hpath) as [props Hd]. rewrite Hd. simpl.
  assert (Hss : props !! "startup_script" = None).
  { rewrite (dump_lookup self props "startup_script" Hd) by done.
    destruct (_settings self !! "startup_script") as [v|]; [|done].
    unfold dumped. simpl. by rewrite andb_false_r. }
  set (ni := {| entries := ids; properties := Some (<["name" := name]> props) |}).
  rewrite (load_calls_create w fresh ni (<["name" := name]> props) name);
    [|done|apply lookup_insert_eq|by rewrite Hkeys].
  set (vm := map_fold _ _ _).
  assert (Hvm : ∀ k, k ≠ "name" →
            vm !! k = if has_key k (_settings self) then props !! k else None).
  { intros k Hk. unfold vm. by rewrite load_fold, Hkeys, lookup_insert_ne. }
  unfold create. rewrite resolve_script_file_absent.
  2:{ by rewrite lookup_delete_ne, Hvm, Hfile. }
  rewrite del_if_present_delete.
  replace (has_key "startup_script" _) with false.
  2:{ symmetry. apply has_key_false. rewrite !lookup_delete_ne, Hvm, Hss by done.
      by destruct (has_key "startup_script" (_settings self)). }
  simpl. rewrite dict_update_empty. eexists _, _. split; [done|].
  intros k v. destruct (decide (k = "startup_script_path")) as [->|Hk1].
  { rewrite lookup_delete_eq. split; [done|tauto]. }
  rewrite lookup_delete_ne by done.
  destruct (decide (k = "name")) as [->|Hk2].
  { rewrite lookup_delete_eq. split; [done|tauto]. }
  rewrite lookup_delete_ne, Hvm by done.
  destruct (decide (k = "startup_script")) as [->|Hk3].
  { rewrite Hss. destruct (has_key "startup_script" (_settings self)); split; (done || tauto). }
  rewrite (dump_lookup self props k Hd Hk1).
  destruct (_settings self !! k) as [sv|] eqn:Hsv.
  - replace (has_key k (_settings self)) with true
      by (symmetry; apply has_key_true; eauto).
    destruct (dumped k sv) eqn:Hdumped.
    + apply dumped_true in Hdumped as (? & ? & ?). split.
      * intros [= <-]. done.
      * by intros (_ & _ & _ & [= <-] & _).
    + split; [done|]. intros (_ & _ & _ & [= <-] & Hn & He).
      assert (dumped k sv = true) by (by apply dumped_true). congruence.
  - destruct (has_key k (_settings self)); split; try done;
      by intros (_ & _ & _ & ? & _).
Qed.

Lemma reload_sends_dumped_settings_witness :
  dom (_settings fresh_device) = dom (_settings demo_device) ∧
  has_key "name" (_settings demo_device) = true ∧
  has_key "script_file" (_settings demo_device) = false ∧
  str_or_none (dict_get (_settings demo_device) "startup_script_path") = true ∧
  ∃ node_id params,
    reload demo_world demo_device fresh_device ∅ (VStr "PC1") =
      Ok (returns [_create (VStr "PC1") node_id params "PC{0}"]) ∧
    ∀ k v, params !! k = Some v ↔
      k ≠ "name" ∧ k ≠ "startup_script" ∧ k ≠ "startup_script_path" ∧
      _settings demo_device !! k = Some v ∧ v ≠ VNone ∧ v ≠ VStr "".
Proof.
  split; [vm_compute; reflexivity|].
  split; [vm_compute; reflexivity|].
  split; [vm_compute; reflexivity|].
  split; [vm_compute; reflexivity|].
  apply (reload_sends_dumped_settings demo_world demo_device fresh_device ∅ (VStr "PC1"));
    vm_compute; reflexivity.
Defined.

(** ** More on update and its callback *)

Lemma py_eqb_refl v : py_eqb v v = true.
Proof.
  destruct v as [|b|n|s]; simpl; [done|apply Z.eqb_refl..|apply String.eqb_refl].
Qed.

Lemma py_neb_refl v : py_neb v v = false.
Proof. unfold py_neb. by rewrite py_eqb_refl. Qed.

Lemma update_returns w self (d r : dict) :
  resolve_script_file w d = Ok r →
  update w self d =
    (delete "startup_script_path" r,
     returns (if decide (map_fold (diff_step (_settings self)) ∅
                           (delete "startup_script_path" r) = ∅)
              then []
              else [_update (map_fold (diff_step (_settings self)) ∅
                               (delete "startup_script_path" r))])).
Proof. intros Hr. unfold update. by rewrite Hr, del_if_present_delete. Qed.

Lemma create_returns w name node_id (d r : dict) fmt :
  resolve_script_file w d = Ok r →
  create w name node_id d fmt =
    let sent := if is_none node_id then delete "startup_script_path" r
                else delete "startup_script" (delete "startup_script_path" r) in
    (sent, returns [_create name node_id sent fmt]).
Proof.
  intros Hr. unfold create. rewrite Hr, del_if_present_delete, dict_update_empty.
  destruct (is_none node_id); simpl.
  - by rewrite andb_false_r.
  - rewrite andb_true_r.
    fold (del_if_present "startup_script" (delete "startup_script_path" r)).
    by rewrite del_if_present_delete.
Qed.

(** The patch is empty exactly when no entry differs from a stored one. *)
Lemma diff_empty (settings d : dict) :
  map_fold (diff_step settings) ∅ d = ∅ ↔
  ∀ k v old, d !! k = Some v → settings !! k = Some old → py_neb old v = false.
Proof.
  split.
  - intros He k v old Hd Hs. pose proof (diff_lookup settings d k) as Hl.
    rewrite He, lookup_empty, Hd, Hs in Hl. by destruct (py_neb old v).
  - intros Hall. apply map_eq. intros k. rewrite diff_lookup, lookup_empty.
    destruct (d !! k) as [v|] eqn:Hd; [|done].
    destruct (settings !! k) as [old|] eqn:Hs; [|done].
    by rewrite (Hall k v old Hd Hs).
Qed.

(** X1: [update] with any part of the settings that the device holds, and
    without [script_file], makes no call: nothing differs from what is
    stored. *)
Theorem update_with_stored_settings_is_silent w self (d : dict) :
  d ⊆ _settings self →
  d !! "script_file" = None →
  update w self d = (delete "startup_script_path" d, returns []).
Proof.
  intros Hsub Hfile.
  rewrite (update_returns w self d d) by by apply resolve_script_file_absent.
  rewrite decide_True; [done|]. apply diff_empty. intros k v old Hd Hs.
  assert (d !! k = Some v) as Hk.
  { destruct (decide (k = "startup_script_path")) as [->|Hne].
    - by rewrite lookup_delete_eq in Hd.
    - by rewrite lookup_delete_ne in Hd. }
  rewrite (lookup_weaken _ _ _ _ Hk Hsub) in Hs. injection Hs as <-.
  apply py_neb_refl.
Qed.

Lemma update_with_stored_settings_is_silent_witness :
  delete "console" demo_settings ⊆ _settings demo_device ∧
  delete "console" demo_settings !! "script_file" = None ∧
  update demo_world demo_device (delete "console" demo_settings) =
    (delete "startup_script_path" (delete "console" demo_settings), returns []).
Proof.
  split; [apply (bool_decide_unpack _); vm_compute; exact I|].
  split; [vm_compute; reflexivity|].
  apply (update_with_stored_settings_is_silent demo_world demo_device
           (delete "console" demo_settings)).
  - apply (bool_decide_unpack _); vm_compute; exact I.
  - vm_compute; reflexivity.
Defined.

(** X2: once [update] has sent a patch and [_updateCallback] has taken the
    echo of that patch, the same dictionary passed to [update] again makes no
    call. *)
Theorem update_converges_after_echo w self (d r patch : dict) :
  resolve_script_file w d = Ok r →
  _update patch ∈ trace (update w self d).2 →
  update w (_updateCallback self patch) (update w self d).1 =
    ((update w self d).1, returns []).
Proof.
  intros Hr. rewrite (update_returns w self d r Hr). simpl.
  set (cand := delete "startup_script_path" r).
  destruct (resolve_script_file_Ok w d r Hr) as (Hfile & _ & _).
  assert (resolve_script_file w cand = Ok cand) as Hc.
  { apply resolve_script_file_absent. unfold cand. by rewrite lookup_delete_ne. }
  assert (delete "startup_script_path" cand = cand) as Hdel.
  { apply delete_id. apply lookup_delete_eq. }
  intros Hin. rewrite (update_returns w _ cand cand Hc), Hdel.
  assert (patch = map_fold (diff_step (_settings self)) ∅ cand) as ->.
  { case_decide; [by apply elem_of_nil in Hin|].
    apply list_elem_of_singleton in Hin. by injection Hin. }
  rewrite decide_True; [done|]. apply diff_empty. intros k v old Hd Hs.
  simpl in Hs. rewrite merge_lookup, diff_lookup, Hd in Hs.
  destruct (_settings self !! k) as [old0|] eqn:H0; [|done].
  destruct (py_neb old0 v) eqn:Hne.
  - rewrite Hne in Hs. injection Hs as <-. apply py_neb_refl.
  - by injection Hs as <-.
Qed.

Lemma update_converges_after_echo_witness :
  resolve_script_file demo_world demo_new_settings = Ok demo_resolved ∧
  _update (<["startup_script" := VStr "ip 10.0.0.1/24"]> {["console" := VInt 5001]})
    ∈ trace (update demo_world demo_device demo_new_settings).2 ∧
  update demo_world
    (_updateCallback demo_device
       (<["startup_script" := VStr "ip 10.0.0.1/24"]> {["console" := VInt 5001]}))
    (update demo_world demo_device demo_new_settings).1 =
    ((update demo_world demo_device demo_new_settings).1, returns []).
Proof.
  assert (_update (<["startup_script" := VStr "ip 10.0.0.1/24"]> {["console" := VInt 5001]})
            ∈ trace (update demo_world demo_device demo_new_settings).2) as Hin.
  { replace (trace (update demo_world demo_device demo_new_settings).2)
      with [_update (<["startup_script" := VStr "ip 10.0.0.1/24"]> {["console" := VInt 5001]})]
      by (vm_compute; reflexivity).
    apply list_elem_of_here. }
  split; [vm_compute; reflexivity|]. split; [exact Hin|].
  apply (update_converges_after_echo demo_world demo_device demo_new_settings demo_resolved).
  - vm_compute; reflexivity.
  - exact Hin.
Defined.

Lemma merge_idemp (settings result : dict) :
  map_fold merge_step (map_fold merge_step settings result) result =
  map_fold merge_step settings result.
Proof.
  apply map_eq. intros k. rewrite !merge_lookup.
  destruct (result !! k) as [v|]; [|done].
  destruct (settings !! k) as [old|]; [|done].
  destruct (py_neb old v) eqn:Hne; [by rewrite py_neb_refl|by rewrite Hne].
Qed.

Lemma merge_dom (settings result : dict) :
  dom (map_fold merge_step settings result) = dom settings.
Proof.
  apply set_eq. intros k. rewrite !elem_of_dom, merge_lookup.
  destruct (result !! k) as [v|]; [|done].
  destruct (settings !! k) as [old|]; [|done].
  destruct (py_neb old v); split; eauto.
Qed.

(** X3: [_updateCallback] is idempotent: a response that comes twice leaves
    the device as the first one did. *)
Theorem callback_is_idempotent self (result : dict) :
  _updateCallback (_updateCallback self result) result = _updateCallback self result.
Proof. unfold _updateCallback. simpl. by rewrite merge_idemp. Qed.

Lemma after_responses_dom self (results : list dict) :
  dom (_settings (after_responses self results)) = dom (_settings self).
Proof.
  unfold after_responses. revert self.
  induction results as [|r rs IH]; intros self; simpl; [done|].
  rewrite IH. apply merge_dom.
Qed.

(** X4: the set of settings keys is the same after any sequence of server
    responses: [_updateCallback] neither adds a key nor removes one. *)
Theorem responses_keep_the_keys self (results : list dict) :
  dom (_settings (after_responses self results)) = dom (_settings self) ∧
  ∀ k, has_key k (_settings (after_responses self results)) = has_key k (_settings self).
Proof.
  split; [apply after_responses_dom|].
  intros k. by rewrite !has_key_dom, after_responses_dom.
Qed.

Lemma init_vpcs_settings id name (base : dict) k v :
  vpcs_settings !! k = Some v → _settings (__init__ id name base) !! k = Some v.
Proof. intros Hk. simpl. unfold dict_update. by apply lookup_union_Some_l. Qed.

(** X5: [console] of a device as [__init__] leaves it is [None], whatever the
    base settings were, and [console] raises no [KeyError] after any sequence
    of server responses. *)
Theorem console_after_responses id name (base : dict) (results : list dict) :
  console (__init__ id name base) = Ok VNone ∧
  ∃ port, console (after_responses (__init__ id name base) results) = Ok port.
Proof.
  assert (_settings (__init__ id name base) !! "console" = Some VNone) as H0
    by by apply init_vpcs_settings.
  split; [unfold console; by rewrite H0|]. unfold console.
  assert ("console" ∈ dom (_settings (after_responses (__init__ id name base) results))) as Hin.
  { rewrite after_responses_dom. apply elem_of_dom. eauto. }
  apply elem_of_dom in Hin as [port Hp]. rewrite Hp. eauto.
Qed.

(** X6: after a response that mentions [console], [console] returns the port
    of the response when it differs from the stored one and the stored one
    otherwise: in both cases a value equal to that of the server. *)
Theorem console_follows_the_server self (result : dict) port old :
  result !! "console" = Some port →
  _settings self !! "console" = Some old →
  console (_updateCallback self result) = Ok (if py_neb old port then port else old) ∧
  ∃ v, console (_updateCallback self result) = Ok v ∧ py_eqb v port = true.
Proof.
  intros Hr Hs. unfold console. simpl. rewrite merge_lookup, Hr, Hs.
  destruct (py_neb old port) eqn:Hne.
  - split; [done|]. exists port. by rewrite py_eqb_refl.
  - split; [done|]. exists old. unfold py_neb in Hne. by apply negb_false_iff in Hne.
Qed.

Lemma console_follows_the_server_witness :
  ({["console" := VInt 5002]} : dict) !! "console" = Some (VInt 5002) ∧
  _settings demo_device !! "console" = Some (VInt 5000) ∧
  console (_updateCallback demo_device {["console" := VInt 5002]}) =
    Ok (if py_neb (VInt 5000) (VInt 5002) then VInt 5002 else VInt 5000) ∧
  ∃ v, console (_updateCallback demo_device {["console" := VInt 5002]}) = Ok v ∧
       py_eqb v (VInt 5002) = true.
Proof.
  split; [vm_compute; reflexivity|]. split; [vm_compute; reflexivity|].
  apply (console_follows_the_server demo_device {["console" := VInt 5002]}
           (VInt 5002) (VInt 5000)); vm_compute; reflexivity.
Defined.

(** ** More on create and update *)

(** X7: a [script_file] that is read wins over a [startup_script] of the
    caller: [create] of a new device sends the content of the file, the
    dictionary of the caller holds it afterwards, and [update] sends it when
    it differs from the stored script. *)
Theorem script_file_replaces_startup_script w self name (d : dict) file content fmt :
  d !! "script_file" = Some file →
  os_path_isfile w file = Ok true →
  _readBaseConfig w file = Ok (Some content) →
  let sent := delete "startup_script_path"
                (delete "script_file" (<["startup_script" := VStr content]> d)) in
  sent !! "startup_script" = Some (VStr content) ∧
  create w name VNone d fmt = (sent, returns [_create name VNone sent fmt]) ∧
  (update w self d).1 = sent ∧
  (∀ old, _settings self !! "startup_script" = Some old → py_neb old (VStr content) = true →
     ∃ patch, (update w self d).2 = returns [_update patch] ∧
              patch !! "startup_script" = Some (VStr content)).
Proof.
  intros Hf Hi Hc.
  assert (resolve_script_file w d =
            Ok (delete "script_file" (<["startup_script" := VStr content]> d))) as Hr.
  { unfold resolve_script_file. rewrite Hf, Hi. simpl. by rewrite Hc. }
  simpl.
  assert (delete "startup_script_path"
            (delete "script_file" (<["startup_script" := VStr content]> d))
            !! "startup_script" = Some (VStr content)) as Hs.
  { rewrite !lookup_delete_ne by done. apply lookup_insert_eq. }
  split; [done|]. split; [by rewrite (create_returns _ _ _ _ _ _ Hr)|].
  rewrite (update_returns _ _ _ _ Hr). split; [done|].
  intros old Ho Hne. simpl. eexists. rewrite decide_False.
  - split; [done|]. by rewrite diff_lookup, Hs, Ho, Hne.
  - intros He. pose proof (diff_lookup (_settings self)
      (delete "startup_script_path"
         (delete "script_file" (<["startup_script" := VStr content]> d))) "startup_script") as Hl.
    by rewrite He, lookup_empty, Hs, Ho, Hne in Hl.
Qed.

Lemma script_file_replaces_startup_script_witness :
  demo_new_settings !! "script_file" = Some (VStr "/home/user/PC1_startup.vpc") ∧
  os_path_isfile demo_world (VStr "/home/user/PC1_startup.vpc") = Ok true ∧
  _readBaseConfig demo_world (VStr "/home/user/PC1_startup.vpc") = Ok (Some "ip 10.0.0.1/24") ∧
  let sent := delete "startup_script_path"
                (delete "script_file"
                   (<["startup_script" := VStr "ip 10.0.0.1/24"]> demo_new_settings)) in
  sent !! "startup_script" = Some (VStr "ip 10.0.0.1/24") ∧
  create demo_world (VStr "PC1") VNone demo_new_settings "PC{0}" =
    (sent, returns [_create (VStr "PC1") VNone sent "PC{0}"]) ∧
  (update demo_world demo_device demo_new_settings).1 = sent ∧
  (∀ old, _settings demo_device !! "startup_script" = Some old →
     py_neb old (VStr "ip 10.0.0.1/24") = true →
     ∃ patch, (update demo_world demo_device demo_new_settings).2 = returns [_update patch] ∧
              patch !! "startup_script" = Some (VStr "ip 10.0.0.1/24")).
Proof.
  split; [vm_compute; reflexivity|]. split; [vm_compute; reflexivity|].
  split; [vm_compute; reflexivity|].
  apply (script_file_replaces_startup_script demo_world demo_device (VStr "PC1")
           demo_new_settings (VStr "/home/user/PC1_startup.vpc") "ip 10.0.0.1/24" "PC{0}");
    vm_compute; reflexivity.
Defined.

(** X8: a [script_file] that is no file, or that [_readBaseConfig] cannot
    read, is dropped without an exception: [create] and [update] do what they
    do without the entry. *)
Theorem unreadable_script_file_is_ignored w self name node_id (d : dict) file fmt :
  d !! "script_file" = Some file →
  os_path_isfile w file = Ok false ∨
    (os_path_isfile w file = Ok true ∧ _readBaseConfig w file = Ok None) →
  create w name node_id d fmt = create w name node_id (delete "script_file" d) fmt ∧
  update w self d = update w self (delete "script_file" d) ∧
  raised (create w name node_id d fmt).2 = None ∧
  raised (update w self d).2 = None.
Proof.
  intros Hf Hw.
  assert (resolve_script_file w d = Ok (delete "script_file" d)) as Hr.
  { unfold resolve_script_file. rewrite Hf.
    destruct Hw as [->|[-> ->]]; done. }
  assert (resolve_script_file w (delete "script_file" d) = Ok (delete "script_file" d)) as Hr'.
  { apply resolve_script_file_absent, lookup_delete_eq. }
  rewrite (create_returns _ _ _ _ _ _ Hr), (create_returns _ _ _ _ _ _ Hr').
  rewrite (update_returns _ _ _ _ Hr), (update_returns _ _ _ _ Hr').
  repeat split.
Qed.

Lemma unreadable_script_file_is_ignored_witness :
  ({["script_file" := VStr "/home/user/gone.vpc"]} : dict) !! "script_file" =
    Some (VStr "/home/user/gone.vpc") ∧
  (os_path_isfile demo_world (VStr "/home/user/gone.vpc") = Ok false ∨
   (os_path_isfile demo_world (VStr "/home/user/gone.vpc") = Ok true ∧
    _readBaseConfig demo_world (VStr "/home/user/gone.vpc") = Ok None)) ∧
  create demo_world (VStr "PC1") VNone {["script_file" := VStr "/home/user/gone.vpc"]} "PC{0}" =
    create demo_world (VStr "PC1") VNone
      (delete "script_file" {["script_file" := VStr "/home/user/gone.vpc"]}) "PC{0}" ∧
  update demo_world demo_device {["script_file" := VStr "/home/user/gone.vpc"]} =
    update demo_world demo_device
      (delete "script_file" {["script_file" := VStr "/home/user/gone.vpc"]}) ∧
  raised (create demo_world (VStr "PC1") VNone
            {["script_file" := VStr "/home/user/gone.vpc"]} "PC{0}").2 = None ∧
  raised (update demo_world demo_device {["script_file" := VStr "/home/user/gone.vpc"]}).2 = None.
Proof.
  split; [vm_compute; reflexivity|].
  split; [left; vm_compute; reflexivity|].
  apply (unreadable_script_file_is_ignored demo_world demo_device (VStr "PC1") VNone
           {["script_file" := VStr "/home/user/gone.vpc"]} (VStr "/home/user/gone.vpc") "PC{0}").
  - vm_compute; reflexivity.
  - left; vm_compute; reflexivity.
Defined.

(** X9: neither [create] nor [update] ever hands [script_file] or
    [startup_script_path] to the base class. *)
Theorem script_file_and_path_are_never_sent w self name node_id (d : dict) fmt :
  (∀ n i params f, _create n i params f ∈ trace (create w name node_id d fmt).2 →
     params !! "script_file" = None ∧ params !! "startup_script_path" = None) ∧
  (∀ params, _update params ∈ trace (update w self d).2 →
     params !! "script_file" = None ∧ params !! "startup_script_path" = None).
Proof.
  destruct (resolve_script_file w d) as [r|e] eqn:Hr.
  - destruct (resolve_script_file_Ok w d r Hr) as (Hfile & _ & _).
    rewrite (create_returns _ _ _ _ _ _ Hr), (update_returns _ _ _ _ Hr). simpl. split.
    + intros n i params f [= _ _ -> _]%list_elem_of_singleton.
      destruct (is_none node_id); split.
      * by rewrite lookup_delete_ne.
      * apply lookup_delete_eq.
      * by rewrite !lookup_delete_ne.
      * rewrite lookup_delete_ne by done. apply lookup_delete_eq.
    + intros params Hin. case_decide; [by apply elem_of_nil in Hin|].
      apply list_elem_of_singleton in Hin. injection Hin as ->.
      split; rewrite diff_lookup.
      * by rewrite lookup_delete_ne, Hfile.
      * by rewrite lookup_delete_eq.
  - rewrite (create_raises _ _ _ _ _ _ Hr), (update_raises _ _ _ _ Hr). simpl.
    split; intros; by apply elem_of_nil in H.
Qed.

(** X10: the dictionary that a call of [update] or [create] leaves to the
    caller, passed again, leads to the same call and stays as it is: the
    script file is asked for the first time only. *)
Theorem repeated_call_reuses_the_dictionary w self name node_id (d : dict) fmt :
  update w self (update w self d).1 = update w self d ∧
  create w name node_id (create w name node_id d fmt).1 fmt = create w name node_id d fmt.
Proof.
  destruct (resolve_script_file w d) as [r|e] eqn:Hr.
  - destruct (resolve_script_file_Ok w d r Hr) as (Hfile & _ & _).
    set (cand := delete "startup_script_path" r).
    assert (cand !! "script_file" = None) as Hc by (unfold cand; by rewrite lookup_delete_ne).
    assert (delete "startup_script_path" cand = cand) as Hdel
      by apply delete_id, lookup_delete_eq.
    split.
    + rewrite (update_returns _ _ _ _ Hr). simpl. fold cand.
      rewrite (update_returns w self cand cand) by by apply resolve_script_file_absent.
      by rewrite Hdel.
    + rewrite (create_returns _ _ _ _ _ _ Hr). simpl. fold cand.
      destruct (is_none node_id) eqn:Hn.
      * rewrite (create_returns w name node_id cand cand)
          by by apply resolve_script_file_absent.
        simpl. by rewrite Hn, Hdel.
      * set (sent := delete "startup_script" cand).
        assert (sent !! "script_file" = None) as Hs
          by (unfold sent; by rewrite lookup_delete_ne).
        rewrite (create_returns w name node_id sent sent)
          by by apply resolve_script_file_absent.
        simpl. rewrite Hn.
        assert (delete "startup_script_path" sent = sent) as ->.
        { apply delete_id. unfold sent. rewrite lookup_delete_ne by done.
          apply lookup_delete_eq. }
        assert (delete "startup_script" sent = sent) as ->
          by apply delete_id, lookup_delete_eq.
        done.
  - by rewrite (update_raises _ _ _ _ Hr), (create_raises _ _ _ _ _ _ Hr); simpl;
      rewrite (update_raises _ _ _ _ Hr), (create_raises _ _ _ _ _ _ Hr).
Qed.

(** ** More on load *)

(** X11: [load] of a record without [properties], or whose [properties] have
    no [name] or a [name] that the device does not keep, raises [KeyError]
    before anything is created. *)
Theorem load_without_name_raises w self node_info :
  (properties node_info = None →
   load w self node_info = raises (KeyError "properties")) ∧
  (∀ props, properties node_info = Some props →
     props !! "name" = None ∨ has_key "name" (_settings self) = false →
     load w self node_info = raises (KeyError "name")).
Proof.
  split; [apply load_raises|].
  intros props Hp Hn. unfold load. rewrite Hp, load_fold.
  destruct Hn as [Hn|Hn]; rewrite Hn; [|done]. by destruct (has_key _ _).
Qed.

(** X12: for a device that keeps [name] and no [script_file], [load] of a
    record with named [properties] calls [_create] once, with the name, the
    resolved identifier and exactly the properties whose key the device
    keeps, less [name] and [startup_script_path], and less [startup_script]
    unless the resolved identifier is [None]. *)
Theorem load_forwards_recognized_properties w self node_info (props : dict) name :
  properties node_info = Some props →
  props !! "name" = Some name →
  has_key "name" (_settings self) = true →
  has_key "script_file" (_settings self) = false →
  ∃ params,
    load w self node_info =
      returns [_create name (resolve_node_id node_info) params "PC{0}"] ∧
    ∀ k v, params !! k = Some v ↔
      props !! k = Some v ∧ has_key k (_settings self) = true ∧
      k ≠ "name" ∧ k ≠ "startup_script_path" ∧
      (k = "startup_script" → resolve_node_id node_info = VNone).
Proof.
  intros Hp Hn Hk Hs. rewrite (load_calls_create _ _ _ _ _ Hp Hn Hk).
  set (vm := delete "name" _).
  assert (Hvm : ∀ k, vm !! k =
            if decide (k = "name") then None
            else if has_key k (_settings self) then props !! k else None).
  { intros k. unfold vm. case_decide as Hd.
    - subst k. apply lookup_delete_eq.
    - by rewrite lookup_delete_ne, load_fold. }
  rewrite (create_returns w name _ vm vm).
  2:{ apply resolve_script_file_absent. rewrite Hvm, Hs. by case_decide. }
  simpl. eexists. split; [done|]. intros k v.
  destruct (decide (k = "startup_script_path")) as [->|Hk1].
  { destruct (is_none _); rewrite ?(lookup_delete_ne _ "startup_script") by done;
      rewrite lookup_delete_eq; split; (done || tauto). }
  destruct (decide (k = "startup_script")) as [->|Hk2].
  - destruct (resolve_node_id node_info) eqn:Hid; simpl;
      rewrite ?lookup_delete_eq, ?lookup_delete_ne, ?Hvm by done;
      rewrite ?decide_False by done;
      destruct (has_key "startup_script" (_settings self)); split;
      try done; try tauto; try (by intros (_ & ? & _));
      intros (_ & _ & _ & _ & Hnone); by specialize (Hnone eq_refl).
  - assert ((if is_none (resolve_node_id node_info)
             then delete "startup_script_path" vm
             else delete "startup_script" (delete "startup_script_path" vm)) !! k = vm !! k)
      as ->.
    { destruct (is_none _); by rewrite !lookup_delete_ne. }
    rewrite Hvm. case_decide as Hd; [split; [done|tauto]|].
    destruct (has_key k (_settings self)); split; try tauto; try done.
    by intros (_ & ? & _).
Qed.

Lemma load_forwards_recognized_properties_witness :
  properties legacy_record = Some (<["name" := VStr "PC1"]> {["console" := VInt 5000]}) ∧
  (<["name" := VStr "PC1"]> {["console" := VInt 5000]} : dict) !! "name" = Some (VStr "PC1") ∧
  has_key "name" (_settings fresh_device) = true ∧
  has_key "script_file" (_settings fresh_device) = false ∧
  ∃ params,
    load demo_world fresh_device legacy_record =
      returns [_create (VStr "PC1") (resolve_node_id legacy_record) params "PC{0}"] ∧
    ∀ k v, params !! k = Some v ↔
      (<["name" := VStr "PC1"]> {["console" := VInt 5000]} : dict) !! k = Some v ∧
      has_key k (_settings fresh_device) = true ∧
      k ≠ "name" ∧ k ≠ "startup_script_path" ∧
      (k = "startup_script" → resolve_node_id legacy_record = VNone).
Proof.
  split; [vm_compute; reflexivity|]. split; [vm_compute; reflexivity|].
  split; [vm_compute; reflexivity|]. split; [vm_compute; reflexivity|].
  apply (load_forwards_recognized_properties demo_world fresh_device legacy_record
           (<["name" := VStr "PC1"]> {["console" := VInt 5000]}) (VStr "PC1"));
    vm_compute; reflexivity.
Defined.

(** ** More on dump *)

(** X13: [dump] does not depend on the script: whatever [startup_script]
    holds, the result is the same. *)
Theorem dump_ignores_startup_script self script :
  dump (with_script self script) = dump self.
Proof.
  pose proof (dump_fold Node_dump_properties (_settings (with_script self script))) as H1.
  pose proof (dump_fold Node_dump_properties (_settings self)) as H2.
  unfold dump, dump_onto. simpl in *.
  assert (Hno : ∀ v, dumped "startup_script" v = false).
  { intros v. unfold dumped. simpl. apply andb_false_r. }
  destruct (map_fold dump_step (Ok Node_dump_properties) (<[_ := _]> _)) as [p1|e1];
    destruct (map_fold dump_step (Ok Node_dump_properties) (_settings self)) as [p2|e2];
    unfold dump_post in *.
  - f_equal. apply map_eq. intros k. specialize (H1 k). specialize (H2 k).
    destruct (decide (k = "startup_script")) as [->|Hne].
    + rewrite lookup_insert_eq, Hno in H1. rewrite H1.
      destruct (_settings self !! "startup_script"); [rewrite Hno in H2|]; by rewrite H2.
    + rewrite lookup_insert_ne in H1 by done.
      destruct (_settings self !! k) as [v|]; [|congruence].
      destruct (dumped k v); [|congruence].
      destruct (String.eqb k "startup_script_path"); [|congruence].
      destruct H1 as (q1 & -> & ->), H2 as (q2 & [= <-] & ->). done.
  - destruct H2 as (_ & v & Hv & Hn & Hs). specialize (H1 "startup_script_path").
    rewrite lookup_insert_ne, Hv in H1 by done.
    replace (dumped "startup_script_path" v) with true in H1.
    + simpl in H1. destruct H1 as (q & -> & _). by destruct (Hs q).
    + symmetry; apply dumped_true; repeat split; try done; intros ->; by destruct (Hs "").
  - destruct H1 as (_ & v & Hv & Hn & Hs). rewrite lookup_insert_ne in Hv by done.
    specialize (H2 "startup_script_path"). rewrite Hv in H2.
    replace (dumped "startup_script_path" v) with true in H2.
    + simpl in H2. destruct H2 as (q & -> & _). by destruct (Hs q).
    + symmetry; apply dumped_true; repeat split; try done; intros ->; by destruct (Hs "").
  - destruct H1 as (-> & _), H2 as (-> & _). done.
Qed.

(** ** More on paths *)

Lemma app_cons c (a b : string) : String c a +:+ b = String c (a +:+ b).
Proof. reflexivity. Qed.

Lemma app_nil_r (a : string) : a +:+ "" = a.
Proof. induction a as [|c a IH]; [done|]. by rewrite app_cons, IH. Qed.

Lemma app_assoc (a b c : string) : (a +:+ b) +:+ c = a +:+ b +:+ c.
Proof. induction a as [|x a IH]; [done|]. by rewrite !app_cons, IH. Qed.

Lemma has_sep_app (a b : string) : has_sep (a +:+ b) = has_sep a || has_sep b.
Proof.
  induction a as [|c a IH]; [done|]. rewrite app_cons. simpl.
  by rewrite IH, orb_assoc.
Qed.

Lemma ends_with_sep_split d : ends_with_sep d = true → ∃ d', d = d' +:+ "/".
Proof.
  induction d as [|c d IH]; [done|]. destruct d as [|c' d].
  - simpl. unfold is_sep. intros ->%Ascii.eqb_eq. by exists "".
  - rewrite ends_with_sep_cons by done. intros [d' ->]%IH.
    exists (String c d'). by rewrite app_cons.
Qed.

Lemma basename_after_sep (a f : string) :
  has_sep f = false → basename (a +:+ String "/" f) = f.
Proof.
  intros Hf. induction a as [|c a IH].
  - change ("" +:+ String "/" f) with (String "/" f). rewrite basename_cons. simpl.
    unfold basename. by apply basename_from_no_sep.
  - rewrite app_cons, basename_cons, has_sep_app. simpl.
    by rewrite !orb_true_r.
Qed.

Lemma basename_join d f :
  has_sep f = false → basename (os_path_join d f) = f.
Proof.
  intros Hf. unfold os_path_join.
  assert (starts_with_sep f = false) as ->.
  { destruct f as [|c f]; [done|]. simpl in *. by apply orb_false_iff in Hf as [? _]. }
  destruct (String.eqb_spec d "") as [->|Hd]; simpl.
  - unfold basename. by apply basename_from_no_sep.
  - destruct (ends_with_sep d) eqn:He.
    + apply ends_with_sep_split in He as [d' ->]. rewrite app_assoc.
      by apply basename_after_sep.
    + by apply basename_after_sep.
Qed.

Lemma join_suffix d n s :
  starts_with_sep s = false → os_path_join d (n +:+ s) = os_path_join d n +:+ s.
Proof.
  intros Hs. unfold os_path_join. destruct n as [|c n].
  - change ("" +:+ s) with s. rewrite Hs. simpl.
    destruct (String.eqb d "" || ends_with_sep d).
    + by rewrite app_nil_r.
    + by rewrite !app_assoc.
  - rewrite app_cons. simpl. destruct (is_sep c); [done|].
    destruct (String.eqb d "" || ends_with_sep d).
    + by rewrite <- app_cons, app_assoc.
    + by rewrite <- app_cons, !app_assoc.
Qed.

(** ** More on export *)

Lemma export_callback_saves w self (disk : files) (result : dict) script
    (context : gmap string string) path :
  result !! "startup_script" = Some script →
  context !! "path" = Some path →
  _exportConfigCallback w self disk result false context =
    save_script w self disk path script.
Proof. intros Hs Hp. unfold _exportConfigCallback, save_script. by rewrite Hs, Hp. Qed.

Lemma save_script_frame w self (disk : files) path script q :
  q ≠ path → (save_script w self disk path script).1 !! q = disk !! q.
Proof.
  intros Hq. unfold save_script. destruct (open_wb w path); [done|].
  destruct (truthy script); [destruct script|]; simpl;
    by rewrite ?lookup_insert_ne.
Qed.

Lemma directory_callback_saves w self (disk : files) (result : dict) script
    (context : gmap string string) directory :
  result !! "startup_script" = Some script →
  context !! "directory" = Some directory →
  _exportConfigToDirectoryCallback w self disk result false context =
    save_script w self disk (directory_config_path w self directory) script.
Proof. intros Hs Hd. unfold _exportConfigToDirectoryCallback. by rewrite Hs, Hd. Qed.

(** X14: [_exportConfigToDirectoryCallback], given its directory, is
    [_exportConfigCallback] on the path
    [directory/<normalized name>_startup.vpc]. *)
Theorem directory_export_is_export_to_its_path w self (disk : files) (result : dict)
    error (context : gmap string string) directory :
  context !! "directory" = Some directory →
  _exportConfigToDirectoryCallback w self disk result error context =
    _exportConfigCallback w self disk result error
      {["path" := directory_config_path w self directory]}.
Proof.
  intros Hd. unfold _exportConfigToDirectoryCallback, _exportConfigCallback, save_script.
  by rewrite Hd, lookup_singleton_eq.
Qed.

Lemma directory_export_is_export_to_its_path_witness :
  ({["directory" := "/home/user"]} : gmap string string) !! "directory" = Some "/home/user" ∧
  _exportConfigToDirectoryCallback demo_world demo_device ∅
    {["startup_script" := VStr "ip dhcp"]} false {["directory" := "/home/user"]} =
  _exportConfigCallback demo_world demo_device ∅
    {["startup_script" := VStr "ip dhcp"]} false
    {["path" := directory_config_path demo_world demo_device "/home/user"]}.
Proof.
  split; [vm_compute; reflexivity|].
  apply (directory_export_is_export_to_its_path demo_world demo_device ∅
           {["startup_script" := VStr "ip dhcp"]} false {["directory" := "/home/user"]}
           "/home/user").
  vm_compute; reflexivity.
Defined.

(** X15: the export callbacks leave every file other than their target as it
    was, whatever the response is. *)
Theorem export_touches_one_file w self (disk : files) (result : dict) error
    (context : gmap string string) q :
  (context !! "path" ≠ Some q →
   (_exportConfigCallback w self disk result error context).1 !! q = disk !! q) ∧
  (∀ directory, context !! "directory" = Some directory →
     q ≠ directory_config_path w self directory →
     (_exportConfigToDirectoryCallback w self disk result error context).1 !! q = disk !! q).
Proof.
  split.
  - intros Hq. destruct error.
    + unfold _exportConfigCallback. by destruct (result !! "message").
    + destruct (result !! "startup_script") as [script|] eqn:Hs.
      * destruct (context !! "path") as [path|] eqn:Hp.
        -- rewrite (export_callback_saves _ _ _ _ _ _ _ Hs Hp).
           apply save_script_frame. congruence.
        -- unfold _exportConfigCallback. by rewrite Hs, Hp.
      * unfold _exportConfigCallback. by rewrite Hs.
  - intros directory Hd Hq. destruct error.
    + unfold _exportConfigToDirectoryCallback. by destruct (result !! "message").
    + destruct (result !! "startup_script") as [script|] eqn:Hs.
      * rewrite (directory_callback_saves _ _ _ _ _ _ _ Hs Hd).
        by apply save_script_frame.
      * unfold _exportConfigToDirectoryCallback. by rewrite Hs.
Qed.

(** X16: when the target cannot be opened, [_exportConfigCallback] returns
    after one error signal that carries the identifier of the device, the
    path and the text of the [OSError]; the disk is as it was. *)
Theorem export_reports_a_file_that_cannot_be_opened w self (disk : files) (result : dict)
    script (context : gmap string string) path e :
  result !! "startup_script" = Some script →
  context !! "path" = Some path →
  open_wb w path = Some e →
  _exportConfigCallback w self disk result false context =
    (disk, returns [error_signal (self_id self)
                      ("could not export the script file to " +:+ path +:+ ": " +:+ e)]).
Proof.
  intros Hs Hp Ho. rewrite (export_callback_saves _ _ _ _ _ _ _ Hs Hp).
  unfold save_script. by rewrite Ho.
Qed.

Lemma export_reports_a_file_that_cannot_be_opened_witness :
  ({["startup_script" := VStr "ip dhcp"]} : dict) !! "startup_script" = Some (VStr "ip dhcp") ∧
  ({["path" := "/readonly/PC1.vpc"]} : gmap string string) !! "path" = Some "/readonly/PC1.vpc" ∧
  open_wb demo_world "/readonly/PC1.vpc" = Some "[Errno 13] Permission denied" ∧
  _exportConfigCallback demo_world demo_device ∅
    {["startup_script" := VStr "ip dhcp"]} false {["path" := "/readonly/PC1.vpc"]} =
    (∅, returns [error_signal (self_id demo_device)
                   ("could not export the script file to " +:+ "/readonly/PC1.vpc" +:+ ": " +:+
                      "[Errno 13] Permission denied")]).
Proof.
  split; [vm_compute; reflexivity|]. split; [vm_compute; reflexivity|].
  split; [vm_compute; reflexivity|].
  apply (export_reports_a_file_that_cannot_be_opened demo_world demo_device ∅
           {["startup_script" := VStr "ip dhcp"]} (VStr "ip dhcp")
           {["path" := "/readonly/PC1.vpc"]} "/readonly/PC1.vpc"
           "[Errno 13] Permission denied"); vm_compute; reflexivity.
Defined.

(** X17: a script that is truthy but no [str] leaves
    [_exportConfigCallback] with [AttributeError], after the file has been
    created empty and without a signal. *)
Theorem export_of_a_script_that_is_no_text w self (disk : files) (result : dict)
    script (context : gmap string string) path :
  result !! "startup_script" = Some script →
  context !! "path" = Some path →
  open_wb w path = None →
  truthy script = true →
  (∀ s, script ≠ VStr s) →
  _exportConfigCallback w self disk result false context =
    (<[path := []]> disk, raises AttributeError).
Proof.
  intros Hs Hp Ho Ht Hn. rewrite (export_callback_saves _ _ _ _ _ _ _ Hs Hp).
  unfold save_script. rewrite Ho, Ht. destruct script; try done. by destruct (Hn s).
Qed.

Lemma export_of_a_script_that_is_no_text_witness :
  ({["startup_script" := VInt 7]} : dict) !! "startup_script" = Some (VInt 7) ∧
  ({["path" := "/tmp/PC1.vpc"]} : gmap string string) !! "path" = Some "/tmp/PC1.vpc" ∧
  open_wb demo_world "/tmp/PC1.vpc" = None ∧
  truthy (VInt 7) = true ∧
  (∀ s, VInt 7 ≠ VStr s) ∧
  _exportConfigCallback demo_world demo_device ∅
    {["startup_script" := VInt 7]} false {["path" := "/tmp/PC1.vpc"]} =
    (<["/tmp/PC1.vpc" := []]> ∅, raises AttributeError).
Proof.
  split; [vm_compute; reflexivity|]. split; [vm_compute; reflexivity|].
  split; [vm_compute; reflexivity|]. split; [vm_compute; reflexivity|].
  split; [intros s; discriminate|].
  apply (export_of_a_script_that_is_no_text demo_world demo_device ∅
           {["startup_script" := VInt 7]} (VInt 7) {["path" := "/tmp/PC1.vpc"]} "/tmp/PC1.vpc");
    try (vm_compute; reflexivity).
  intros s; discriminate.
Defined.

(** X18: the request of [exportConfig], completed with a response that holds
    a script, writes the UTF-8 bytes of the script to the path that
    [exportConfig] was given. *)
Theorem export_request_writes_the_given_path w self (disk : files) (result : dict)
    config_export_path s :
  result !! "startup_script" = Some (VStr s) →
  open_wb w config_export_path = None →
  complete w self disk (exportConfig self config_export_path) result false =
    (<[config_export_path := encode_utf8 s]> disk, returns []).
Proof.
  intros Hs Ho.
  change (complete w self disk (exportConfig self config_export_path) result false)
    with (_exportConfigCallback w self disk result false {["path" := config_export_path]}).
  rewrite (export_callback_saves w self disk result (VStr s) _ config_export_path Hs)
    by apply lookup_singleton_eq.
  unfold save_script. rewrite Ho. simpl.
  destruct (String.eqb_spec s "") as [->|Hne]; simpl.
  - done.
  - by rewrite insert_insert_eq.
Qed.

Lemma export_request_writes_the_given_path_witness :
  ({["startup_script" := VStr "ip dhcp"]} : dict) !! "startup_script" = Some (VStr "ip dhcp") ∧
  open_wb demo_world "/tmp/PC1.vpc" = None ∧
  complete demo_world demo_device ∅ (exportConfig demo_device "/tmp/PC1.vpc")
    {["startup_script" := VStr "ip dhcp"]} false =
    (<["/tmp/PC1.vpc" := encode_utf8 "ip dhcp"]> ∅, returns []).
Proof.
  split; [vm_compute; reflexivity|]. split; [vm_compute; reflexivity|].
  apply (export_request_writes_the_given_path demo_world demo_device ∅
           {["startup_script" := VStr "ip dhcp"]} "/tmp/PC1.vpc" "ip dhcp");
    vm_compute; reflexivity.
Defined.

(** ** More on import *)

Lemma import_resolution w path :
  resolve_script_file w {["script_file" := VStr path]} =
    (isfile ← os_path_isfile w (VStr path);
     if isfile : bool then
       content ← _readBaseConfig w (VStr path);
       mret (match content with
             | Some c => {["startup_script" := VStr c]}
             | None => ∅
             end)
     else mret ∅).
Proof.
  unfold resolve_script_file. rewrite lookup_singleton_eq.
  destruct (os_path_isfile w (VStr path)) as [[|]|e]; simpl; [| |done].
  - destruct (_readBaseConfig w (VStr path)) as [[c|]|e]; simpl; [| |done].
    + by rewrite delete_insert_ne, delete_singleton_eq, insert_empty.
    + by rewrite delete_singleton_eq.
  - by rewrite delete_singleton_eq.
Qed.

Lemma script_patch (settings : dict) c :
  map_fold (diff_step settings) ∅ (delete "startup_script_path" {["startup_script" := VStr c]}) =
    match settings !! "startup_script" with
    | Some old => if py_neb old (VStr c) then {["startup_script" := VStr c]} else ∅
    | None => ∅
    end.
Proof.
  apply map_eq. intros k. rewrite diff_lookup, delete_singleton_ne by done.
  destruct (decide (k = "startup_script")) as [->|Hne].
  - rewrite lookup_singleton_eq. destruct (settings !! "startup_script") as [old|]; [|done].
    destruct (py_neb old (VStr c)); by rewrite ?lookup_singleton_eq.
  - rewrite lookup_singleton_ne by done.
    destruct (settings !! "startup_script") as [old|]; [|done].
    destruct (py_neb old (VStr c)); by rewrite ?lookup_singleton_ne.
Qed.

(** X19: [importConfig] of a file that is read sends [startup_script] alone,
    with the content of the file, when it differs from the stored script, and
    nothing when it does not. *)
Theorem import_of_a_readable_file w self path content old :
  os_path_isfile w (VStr path) = Ok true →
  _readBaseConfig w (VStr path) = Ok (Some content) →
  _settings self !! "startup_script" = Some old →
  importConfig w self path =
    returns (if py_neb old (VStr content)
             then [_update {["startup_script" := VStr content]}] else []).
Proof.
  intros Hi Hr Ho. unfold importConfig.
  rewrite (update_returns w self _ {["startup_script" := VStr content]}).
  2:{ rewrite import_resolution, Hi. simpl. by rewrite Hr. }
  simpl. rewrite script_patch, Ho. destruct (py_neb old (VStr content)).
  - rewrite decide_False; [done|]. intros He.
    apply (f_equal (lookup "startup_script")) in He.
    by rewrite lookup_singleton_eq, lookup_empty in He.
  - by rewrite decide_True.
Qed.

Lemma import_of_a_readable_file_witness :
  os_path_isfile demo_world (VStr "/home/user/PC1_startup.vpc") = Ok true ∧
  _readBaseConfig demo_world (VStr "/home/user/PC1_startup.vpc") = Ok (Some "ip 10.0.0.1/24") ∧
  _settings demo_device !! "startup_script" = Some (VStr "ip dhcp") ∧
  importConfig demo_world demo_device "/home/user/PC1_startup.vpc" =
    returns (if py_neb (VStr "ip dhcp") (VStr "ip 10.0.0.1/24")
             then [_update {["startup_script" := VStr "ip 10.0.0.1/24"]}] else []).
Proof.
  split; [vm_compute; reflexivity|]. split; [vm_compute; reflexivity|].
  split; [vm_compute; reflexivity|].
  apply (import_of_a_readable_file demo_world demo_device "/home/user/PC1_startup.vpc"
           "ip 10.0.0.1/24" (VStr "ip dhcp")); vm_compute; reflexivity.
Defined.

(** X20: [importConfig] of a path that is no file, or that cannot be read,
    returns without a call and without a signal. *)
Theorem import_of_a_missing_file_is_silent w self path :
  os_path_isfile w (VStr path) = Ok false ∨
    (os_path_isfile w (VStr path) = Ok true ∧ _readBaseConfig w (VStr path) = Ok None) →
  importConfig w self path = returns [].
Proof.
  intros Hw. unfold importConfig. rewrite (update_returns w self _ ∅).
  2:{ rewrite import_resolution. destruct Hw as [->|[-> ->]]; done. }
  simpl. rewrite decide_True; [done|]. apply diff_empty. intros k v old Hk.
  by rewrite lookup_delete_ne, lookup_empty in Hk
    || rewrite delete_empty, lookup_empty in Hk.
Qed.

Lemma import_of_a_missing_file_is_silent_witness :
  (os_path_isfile demo_world (VStr "/home/user/gone.vpc") = Ok false ∨
   (os_path_isfile demo_world (VStr "/home/user/gone.vpc") = Ok true ∧
    _readBaseConfig demo_world (VStr "/home/user/gone.vpc") = Ok None)) ∧
  importConfig demo_world demo_device "/home/user/gone.vpc" = returns [].
Proof.
  split; [left; vm_compute; reflexivity|].
  apply (import_of_a_missing_file_is_silent demo_world demo_device "/home/user/gone.vpc").
  left; vm_compute; reflexivity.
Defined.

(** X21: whatever [importConfig] sends to [_update] is the single entry
    [startup_script] with the content read from the given path. *)
Theorem import_sends_only_the_script w self path params :
  _update params ∈ trace (importConfig w self path) →
  ∃ content,
    params = {["startup_script" := VStr content]} ∧
    _readBaseConfig w (VStr path) = Ok (Some content).
Proof.
  unfold importConfig.
  destruct (resolve_script_file w {["script_file" := VStr path]}) as [r|e] eqn:Hr.
  - rewrite (update_returns _ _ _ _ Hr). simpl. rewrite import_resolution in Hr.
    destruct (os_path_isfile w (VStr path)) as [[|]|e]; simpl in Hr; [| |done].
    + destruct (_readBaseConfig w (VStr path)) as [[c|]|e]; simpl in Hr; [| |done].
      * injection Hr as <-. rewrite script_patch.
        intros Hin. case_decide as Hd; [by apply elem_of_nil in Hin|].
        apply list_elem_of_singleton in Hin. injection Hin as ->. exists c.
        split; [|done].
        destruct (_settings self !! "startup_script") as [old|]; [|done].
        by destruct (py_neb old (VStr c)).
      * injection Hr as <-. rewrite delete_empty, map_fold_empty.
        rewrite decide_True by done. by intros ?%elem_of_nil.
    + injection Hr as <-. rewrite delete_empty, map_fold_empty.
      rewrite decide_True by done. by intros ?%elem_of_nil.
  - rewrite (update_raises _ _ _ _ Hr). simpl. by intros ?%elem_of_nil.
Qed.

Lemma import_sends_only_the_script_witness :
  _update {["startup_script" := VStr "ip 10.0.0.1/24"]}
    ∈ trace (importConfig demo_world demo_device "/home/user/PC1_startup.vpc") ∧
  ∃ content,
    ({["startup_script" := VStr "ip 10.0.0.1/24"]} : dict) = {["startup_script" := VStr content]} ∧
    _readBaseConfig demo_world (VStr "/home/user/PC1_startup.vpc") = Ok (Some content).
Proof.
  assert (_update {["startup_script" := VStr "ip 10.0.0.1/24"]}
            ∈ trace (importConfig demo_world demo_device "/home/user/PC1_startup.vpc")) as Hin.
  { replace (trace (importConfig demo_world demo_device "/home/user/PC1_startup.vpc"))
      with [_update {["startup_script" := VStr "ip 10.0.0.1/24"]}]
      by (vm_compute; reflexivity).
    apply list_elem_of_here. }
  split; [exact Hin|].
  apply (import_sends_only_the_script demo_world demo_device "/home/user/PC1_startup.vpc"
           {["startup_script" := VStr "ip 10.0.0.1/24"]} Hin).
Defined.

(** X22: the file that the directory export writes is the file that
    [importConfigFromDirectory] reads when the listing has it; while the
    normalized name has no separator, its file name is the one expected in
    the listing. *)
Theorem directory_export_meets_import w self (disk : files) (result : dict)
    directory s contents :
  result !! "startup_script" = Some (VStr s) →
  open_wb w (directory_config_path w self directory) = None →
  os_listdir w directory = Ok contents →
  normalize_filename w (self_name self) +:+ "_startup.vpc" ∈ contents →
  (complete w self disk (exportConfigToDirectory self directory) result false).1
    !! directory_config_path w self directory = Some (encode_utf8 s) ∧
  importConfigFromDirectory w self directory =
    importConfig w self (directory_config_path w self directory) ∧
  (has_sep (normalize_filename w (self_name self)) = false →
   basename (directory_config_path w self directory) =
     normalize_filename w (self_name self) +:+ "_startup.vpc").
Proof.
  intros Hs Ho Hl Hin.
  assert (directory_config_path w self directory =
          os_path_join directory (normalize_filename w (self_name self) +:+ "_startup.vpc"))
    as Hpath by (unfold directory_config_path; by rewrite join_suffix).
  repeat split.
  - change (complete w self disk (exportConfigToDirectory self directory) result false)
      with (_exportConfigToDirectoryCallback w self disk result false
              {["directory" := directory]}).
    rewrite (directory_callback_saves w self disk result (VStr s) _ directory Hs)
      by apply lookup_singleton_eq.
    unfold save_script. rewrite Ho. simpl.
    destruct (String.eqb_spec s "") as [->|Hne]; simpl; by rewrite lookup_insert_eq.
  - unfold importConfigFromDirectory, importConfig. rewrite Hl, Hpath.
    by rewrite bool_decide_eq_true_2.
  - intros Hn. rewrite Hpath. apply basename_join.
    rewrite has_sep_app, Hn. done.
Qed.

Lemma directory_export_meets_import_witness :
  ({["startup_script" := VStr "ip dhcp"]} : dict) !! "startup_script" = Some (VStr "ip dhcp") ∧
  open_wb demo_world (directory_config_path demo_world demo_device "/home/user") = None ∧
  os_listdir demo_world "/home/user" = Ok ["notes.txt"; "PC1_startup.vpc"] ∧
  normalize_filename demo_world (self_name demo_device) +:+ "_startup.vpc"
    ∈ ["notes.txt"; "PC1_startup.vpc"] ∧
  (complete demo_world demo_device ∅ (exportConfigToDirectory demo_device "/home/user")
     {["startup_script" := VStr "ip dhcp"]} false).1
    !! directory_config_path demo_world demo_device "/home/user" =
    Some (encode_utf8 "ip dhcp") ∧
  importConfigFromDirectory demo_world demo_device "/home/user" =
    importConfig demo_world demo_device (directory_config_path demo_world demo_device "/home/user") ∧
  (has_sep (normalize_filename demo_world (self_name demo_device)) = false →
   basename (directory_config_path demo_world demo_device "/home/user") =
     normalize_filename demo_world (self_name demo_device) +:+ "_startup.vpc").
Proof.
  assert (normalize_filename demo_world (self_name demo_device) +:+ "_startup.vpc"
            ∈ ["notes.txt"; "PC1_startup.vpc"]) as Hin.
  { apply (bool_decide_unpack _). vm_compute. exact I. }
  split; [vm_compute; reflexivity|]. split; [vm_compute; reflexivity|].
  split; [vm_compute; reflexivity|]. split; [exact Hin|].
  apply (directory_export_meets_import demo_world demo_device ∅
           {["startup_script" := VStr "ip dhcp"]} "/home/user" "ip dhcp"
           ["notes.txt"; "PC1_startup.vpc"]); try (vm_compute; reflexivity).
  exact Hin.
Defined.
